(** * Amigo reporter: a shallow embedding of [amigo/lib/reporter.py]

    The class [Reporter] drives one snapshot run: it resolves the report
    directories ([_setup]), discovers the projects ([_fetch_projects]),
    collects every configured attribute of every stored project
    ([_fetch_attributes_for_projects]) and returns the pair of report
    directories ([run]).

    The Python methods mutate [self], the disk, the local database and the
    remote service.  They are embedded as state-and-exception computations
    over an explicit machine state; every call to a collaborator is also
    appended to an event log so that ordering properties can be stated. *)

From Stdlib Require Import ZArith String Ascii List Lia.
From stdpp Require Import gmap strings list fin_maps.

Set Warnings "-register-all".
Local Open Scope Z_scope.
Local Open Scope string_scope.
Local Open Scope list_scope.

(** ** Data *)

(** Provider documents (projects, firewall rules, ...) are JSON values. *)
Inductive Json : Type :=
| JNull
| JBool (b : bool)
| JNum (n : Z)
| JStr (s : string)
| JArr (items : list Json)
| JObj (fields : list (string * Json)).

(** What [fetch_attribute] hands back: a sequence of raw items, or [None]
    when the attribute is absent. *)
Definition AttributeData : Type := option (list Json).

(** Python truthiness of a fetch result ([if attribute_data:]). *)
Definition truthy (data : AttributeData) : bool :=
  match data with
  | Some (_ :: _) => true
  | Some [] => false
  | None => false
  end.

(** The configuration dictionary, with the keys [reporter.py] reads.
    [gcp_attributes] keeps the order of [dict.items()]. *)
Record Config : Type := mkConfig {
  reports_dir : string;
  database_json : string;
  results_dir : string;
  results_log_file : string;
  gcp_attributes : list (string * list string)
}.

(** Modelled from the spec: the class [GCPWrapper] of [gcp.py], which is not
    among the sources.  An instance is built for one resource type and API
    version and accumulates, for as long as it lives, the non-fatal warnings
    of the calls made through it. *)
Record GCPWrapper : Type := mkGCP {
  gcp_resource : string;
  gcp_version : string;
  gcp_warnings : list string
}.

(** Modelled from the spec: the class [Database] of [database.py], which is
    not among the sources.  A store is a map from table names to the rows
    inserted so far, in insertion order; an unknown table has no rows;
    [get_table] hands the rows out as a value, [insert] appends one row,
    no uniqueness is enforced. *)
Abbreviation Database := (gmap string (list Json)).

Definition get_table (table : string) (db : Database) : list Json :=
  default [] (db !! table).

Definition insert_row (table : string) (row : Json) (db : Database) : Database :=
  <[table := get_table table db ++ [row]]> db.

(** The fields of [self]. *)
Record Reporter : Type := mkReporter {
  config : Config;
  database_path : string;
  reports : option string;
  previous_reports : option string;
  results : option string;
  warnings : list string;
  database : Database
}.

(** Calls to collaborators, in the order they happen. *)
Inductive Event : Type :=
| EvCreateDir (path : string)
| EvGetDate (day : nat) (now : Z) (date : string)
| EvIsPath (path : string) (found : bool)
| EvOpenDatabase (path : string)
| EvClient (resource version : string)
| EvFetch (resource attribute : string) (project : option string)
          (data : AttributeData) (reported : list string)
| EvGetTable (table : string) (rows : list Json)
| EvInsert (table : string) (row : Json)
| EvSave (path : string) (doc : Json)
| EvExtend (ws : list string).

(** Exceptions the interpreter raises in the modelled code. *)
Inductive Exc : Type :=
| TypeError (msg : string)
| IndexError (msg : string).

(** ** Collaborators taken as parameters

    [util.py], the remote service behind [gcp.py] and the system clock are
    outside the sources; what [reporter.py] needs of them is an interface. *)
Class Platform : Type := {
  (** everything outside the process: remote inventory, clock *)
  World : Type;
  (** the remote answer to one listing call: data and the warnings the
      client reports for it *)
  api : string -> string -> option string -> World ->
        (AttributeData * list string) * World;
  (** the day number the system clock shows when it is read *)
  read_clock : World -> Z * World;
  (** the date string of a day number *)
  date_str : Z -> string;
  (** [util.get_full_path] *)
  get_full_path : string -> string -> string;
  (** [util.get_value] on a provider document *)
  get_value : Json -> string -> string;
  (** the rows a store opened at a path already holds *)
  stored_rows : string -> Database
}.

Section Machine.
Context `{P : Platform}.

(** ** Machine state and the computation type *)

Record State : Type := mkState {
  self : Reporter;
  disk : gset string;              (* paths that exist *)
  files : gmap string Json;        (* contents of the JSON files written *)
  world : World;
  trace : list Event
}.

Inductive Outcome (A : Type) : Type :=
| Returns (a : A) (s : State)
| Raises (e : Exc) (s : State).
Arguments Returns {A} a s.
Arguments Raises {A} e s.

Definition M (A : Type) : Type := State -> Outcome A.

Definition ret {A} (a : A) : M A := fun s => Returns a s.

Definition bind {A B} (m : M A) (k : A -> M B) : M B :=
  fun s => match m s with
           | Returns a s' => k a s'
           | Raises e s' => Raises e s'
           end.

Definition raise {A} (e : Exc) : M A := fun s => Raises e s.

Notation "x <- m ;; k" := (bind m (fun x => k))
  (at level 100, m at next level, right associativity).
Notation "m ;;; k" := (bind m (fun _ => k))
  (at level 100, right associativity).

Definition final {A} (o : Outcome A) : State :=
  match o with Returns _ s => s | Raises _ s => s end.

(** [for x in l: body x] *)
Fixpoint for_each {X} (l : list X) (body : X -> M unit) : M unit :=
  match l with
  | [] => ret tt
  | x :: l' => body x ;;; for_each l' body
  end.

(** Python's [range(a, b)]. *)
Definition range (a b : nat) : list nat := seq a (b - a).

(** ** State updates *)

Definition with_self (f : Reporter -> Reporter) (s : State) : State :=
  mkState (f (self s)) (disk s) (files s) (world s) (trace s).

Definition with_world (w : World) (s : State) : State :=
  mkState (self s) (disk s) (files s) w (trace s).

Definition emit (e : Event) (s : State) : State :=
  mkState (self s) (disk s) (files s) (world s) (trace s ++ [e]).

Definition set_reports (p : string) (r : Reporter) : Reporter :=
  mkReporter (config r) (database_path r) (Some p) (previous_reports r)
             (results r) (warnings r) (database r).

Definition set_previous_reports (p : string) (r : Reporter) : Reporter :=
  mkReporter (config r) (database_path r) (reports r) (Some p)
             (results r) (warnings r) (database r).

Definition set_results (p : string) (r : Reporter) : Reporter :=
  mkReporter (config r) (database_path r) (reports r) (previous_reports r)
             (Some p) (warnings r) (database r).

Definition set_warnings (ws : list string) (r : Reporter) : Reporter :=
  mkReporter (config r) (database_path r) (reports r) (previous_reports r)
             (results r) ws (database r).

Definition set_database (db : Database) (r : Reporter) : Reporter :=
  mkReporter (config r) (database_path r) (reports r) (previous_reports r)
             (results r) (warnings r) db.

(** ** Collaborator calls *)

(** Modelled from the spec: [util.get_date(day)] reads the clock at every
    call and names the date [day] days before it; [util.get_date()] is
    [get_date 0]. *)
Definition get_date (day : nat) : M string := fun s =>
  let '(today, w) := read_clock (world s) in
  let d := date_str (today - Z.of_nat day) in
  Returns d (emit (EvGetDate day today d) (with_world w s)).

(** Modelled from the spec: [util.create_dir]; creating a directory that
    exists already is not an error.  A creation that fails is fatal for
    the program and is not part of the model: the model follows the runs
    in which the directories can be created. *)
Definition create_dir (path : string) : M unit := fun s =>
  Returns tt (emit (EvCreateDir path)
                (mkState (self s) ({[path]} ∪ disk s) (files s) (world s) (trace s))).

(** [util.is_path]: whether the path exists.  Only the modelled program
    changes the disk during a run. *)
Definition is_path (path : string) : M bool := fun s =>
  let found := bool_decide (path ∈ disk s) in
  Returns found (emit (EvIsPath path found) s).

(** [util.save_to_json_file(doc, path)]: the file at [path] holds [doc]. *)
Definition save_to_json_file (doc : Json) (path : string) : M unit := fun s =>
  Returns tt (emit (EvSave path doc)
                (mkState (self s) ({[path]} ∪ disk s) (<[path := doc]> (files s))
                         (world s) (trace s))).

(** [util.print_to_stdout]: console output only, no state is touched. *)
Definition print_to_stdout : M unit := ret tt.

(** [Database(path)]: the store holds what was persisted at [path].  A
    store that cannot be opened is fatal for the program and is not part
    of the model. *)
Definition Database_open (path : string) : M unit := fun s =>
  Returns tt (emit (EvOpenDatabase path) (with_self (set_database (stored_rows path)) s)).

(** [self.database.insert(table, row)] *)
Definition database_insert (table : string) (row : Json) : M unit := fun s =>
  Returns tt (emit (EvInsert table row)
                (with_self (fun r => set_database (insert_row table row (database r)) r) s)).

(** [self.database.get_table(table)] *)
Definition database_get_table (table : string) : M (list Json) := fun s =>
  let rows := get_table table (database (self s)) in
  Returns rows (emit (EvGetTable table rows) s).

(** [GCPWrapper(self.config, resource, version)]: a new client, with no
    warning yet. *)
Definition GCPWrapper_new (resource version : string) : M GCPWrapper := fun s =>
  Returns (mkGCP resource version []) (emit (EvClient resource version) s).

(** [gcp.fetch_attribute(attribute, project=project)]: the data comes back,
    the warnings of the call stay with the client. *)
Definition fetch_attribute (gcp : GCPWrapper) (attribute : string)
    (project : option string) : M (AttributeData * GCPWrapper) := fun s =>
  let '((data, ws), w) := api (gcp_resource gcp) attribute project (world s) in
  Returns (data, mkGCP (gcp_resource gcp) (gcp_version gcp) (gcp_warnings gcp ++ ws))
          (emit (EvFetch (gcp_resource gcp) attribute project data ws) (with_world w s)).

(** [if gcp.warnings: self.warnings.extend(gcp.warnings)] *)
Definition drain_warnings (gcp : GCPWrapper) : M unit := fun s =>
  match gcp_warnings gcp with
  | [] => Returns tt s
  | ws => Returns tt (emit (EvExtend ws)
                        (with_self (fun r => set_warnings (warnings r ++ ws) r) s))
  end.

(** [attribute_data[0]] *)
Definition subscript0 (data : AttributeData) : M Json :=
  match data with
  | None => raise (TypeError "'NoneType' object is not subscriptable")
  | Some [] => raise (IndexError "list index out of range")
  | Some (x :: _) => ret x
  end.

(** ** [Reporter._setup] *)

Definition days_back : nat := 30.

(** The loop [for day in range(1, days_back)] with its [break]. *)
Fixpoint search_previous (cfg : Config) (days : list nat) : M unit :=
  match days with
  | [] => ret tt
  | day :: rest =>
      d <- get_date day ;;
      let path := get_full_path (reports_dir cfg) d in
      (fun s => Returns tt (with_self (set_previous_reports path) s)) ;;;
      found <- is_path path ;;
      if negb found
      then print_to_stdout ;;; search_previous cfg rest
      else print_to_stdout
  end.

Definition _setup : M unit := fun s0 =>
  let cfg := config (self s0) in
  (let output_dir := reports_dir cfg in
   print_to_stdout ;;;
   create_dir output_dir ;;;
   today <- get_date 0 ;;
   let current := get_full_path (reports_dir cfg) today in
   (fun s => Returns tt (with_self (set_reports current) s)) ;;;
   create_dir current ;;;
   print_to_stdout ;;;
   search_previous cfg (range 1 days_back) ;;;
   Database_open (database_path (self s0)) ;;;
   create_dir (database_path (self s0)) ;;;
   print_to_stdout ;;;
   create_dir (results_dir cfg) ;;;
   (fun s => Returns tt
      (with_self (set_results (get_full_path (results_dir cfg) (results_log_file cfg))) s)) ;;;
   print_to_stdout) s0.

(** [Reporter.__init__]: the fields are set, then [_setup] runs. *)
Definition new_reporter (cfg : Config) : Reporter :=
  mkReporter cfg (database_json cfg) None None None [] ∅.

Definition __init__ (cfg : Config) : M unit :=
  (fun s => Returns tt (with_self (fun _ => new_reporter cfg) s)) ;;;
  _setup.

(** ** Recording one attribute *)

(** The name of the report file of a project and an attribute. *)
Definition report_name (project_name attribute_item : string) : string :=
  project_name +:+ "@" +:+ attribute_item +:+ ".json".

(** [self.reports] used as a path; it is [None] only before [_setup]. *)
Definition self_reports : M string := fun s =>
  match reports (self s) with
  | Some p => Returns p s
  | None => Raises (TypeError "expected str, bytes or os.PathLike object, not NoneType") s
  end.

Definition _record_attribute_data_to_db (attribute_item : string)
    (attribute_data : AttributeData) (project_name : string) : M unit :=
  row <- subscript0 attribute_data ;;
  database_insert attribute_item row ;;;
  print_to_stdout.

Definition _record_attribute_data_reports (attribute_item : string)
    (attribute_data : AttributeData) (project_name : string) : M unit :=
  dir <- self_reports ;;
  let output_file := get_full_path dir (report_name project_name attribute_item) in
  doc <- subscript0 attribute_data ;;
  save_to_json_file doc output_file ;;;
  print_to_stdout.

(** ** [Reporter._fetch_projects] *)

Definition _fetch_projects : M nat :=
  gcp <- GCPWrapper_new "cloudresourcemanager" "v1" ;;
  r <- fetch_attribute gcp "projects" None ;;
  let '(projects, gcp) := r in
  drain_warnings gcp ;;;
  match projects with
  | None => raise (TypeError "'NoneType' object is not iterable")
  | Some rows =>
      for_each rows (fun project => database_insert "projects" project) ;;;
      ret (length rows)
  end.

(** ** [Reporter._fetch_attributes_for_projects] *)

(** One turn of the innermost loop (lines 134-137); the client is the
    object the turns share. *)
Definition fetch_one (project_name : string) (gcp : GCPWrapper)
    (attribute_item : string) : M GCPWrapper :=
  r <- fetch_attribute gcp attribute_item (Some project_name) ;;
  let '(attribute_data, gcp) := r in
  (if truthy attribute_data
   then _record_attribute_data_reports attribute_item attribute_data project_name ;;;
        _record_attribute_data_to_db attribute_item attribute_data project_name
   else ret tt) ;;;
  ret gcp.

(** [for attribute_item in attribute_item_list] *)
Fixpoint fetch_items (project_name : string) (gcp : GCPWrapper)
    (attribute_item_list : list string) : M GCPWrapper :=
  match attribute_item_list with
  | [] => ret gcp
  | attribute_item :: rest =>
      gcp <- fetch_one project_name gcp attribute_item ;;
      fetch_items project_name gcp rest
  end.

(** One turn of [for attribute_resource, attribute_item_list in ...items()]. *)
Definition fetch_resource (project_name : string)
    (entry : string * list string) : M unit :=
  let '(attribute_resource, attribute_item_list) := entry in
  gcp <- GCPWrapper_new attribute_resource "v1" ;;
  gcp <- fetch_items project_name gcp attribute_item_list ;;
  drain_warnings gcp.

(** One turn of [for project in self.database.get_table("projects")]. *)
Definition fetch_project (attrs : list (string * list string)) (project : Json) : M unit :=
  let project_name := get_value project "projectId" in
  for_each attrs (fetch_resource project_name).

Definition _fetch_attributes_for_projects : M bool := fun s0 =>
  let attrs := gcp_attributes (config (self s0)) in
  (projects <- database_get_table "projects" ;;
   for_each projects (fetch_project attrs) ;;;
   ret true) s0.

(** ** [Reporter.run] *)

Definition run : M (option string * option string) :=
  number_projects <- _fetch_projects ;;
  _fetch_attributes_for_projects ;;;
  print_to_stdout ;;;
  (fun s => Returns (reports (self s), previous_reports (self s)) s).

(** [Reporter(config).run()] *)
Definition session (cfg : Config) : M (option string * option string) :=
  __init__ cfg ;;; run.

(** The value a computation returned, if it returned. *)
Definition result {A} (o : Outcome A) : option A :=
  match o with Returns a _ => Some a | Raises _ _ => None end.

(** The exception a computation raised, if it raised. *)
Definition raised {A} (o : Outcome A) : option Exc :=
  match o with Returns _ _ => None | Raises e _ => Some e end.

End Machine.

Arguments Returns {P A} a s.
Arguments Raises {P A} e s.

(** ** Reading a report name back

    Python's [name.split(sep)] for a one-character separator. *)
Fixpoint split (sep : ascii) (name : string) : list string :=
  match name with
  | EmptyString => [EmptyString]
  | String c rest =>
      if Ascii.eqb c sep then EmptyString :: split sep rest
      else match split sep rest with
           | [] => [String c EmptyString]
           | w :: ws => String c w :: ws
           end
  end.

(** A string has no occurrence of a character. *)
Fixpoint free_of (sep : ascii) (s : string) : bool :=
  match s with
  | EmptyString => true
  | String c rest => negb (Ascii.eqb c sep) && free_of sep rest
  end.

(** ** A concrete platform, for running the model *)

Module Demo.

(** Dates are printed as day numbers. *)
Fixpoint digits (fuel : nat) (n : N) (acc : string) : string :=
  match fuel with
  | O => acc
  | S fuel' =>
      let d := String (ascii_of_N (48 + N.modulo n 10)) acc in
      if N.eqb (N.div n 10) 0 then d else digits fuel' (N.div n 10) d
  end.

Definition day_name (d : Z) : string :=
  ("day" +:+ digits 20 (Z.to_N d) "")%string.

Definition join (a b : string) : string := a +:+ "/" +:+ b.

Fixpoint field (key : string) (fields : list (string * Json)) : string :=
  match fields with
  | [] => ""
  | (k, v) :: rest =>
      if String.eqb k key
      then match v with JStr s => s | _ => "" end
      else field key rest
  end.

Definition lookup_str (doc : Json) (key : string) : string :=
  match doc with
  | JObj fields => field key fields
  | _ => ""
  end.

(** The world: the days the clock will show at its next readings (the last
    one stays), and the answers of the remote service. *)
Record world_t : Type := mkWorld {
  clock : list Z;
  today : Z;
  service : string -> string -> option string -> AttributeData * list string
}.

Definition tick (w : world_t) : Z * world_t :=
  match clock w with
  | [] => (today w, w)
  | d :: rest => (d, mkWorld rest d (service w))
  end.

#[export] Instance platform : Platform := {|
  World := world_t;
  api := fun r a p w => (service w r a p, w);
  read_clock := tick;
  date_str := day_name;
  get_full_path := join;
  get_value := lookup_str;
  stored_rows := fun _ => ∅
|}.

Definition cfg : Config :=
  mkConfig "reports" "db" "results" "results.log"
           [("compute", ["networks"; "firewalls"])].

Definition silent : string -> string -> option string -> AttributeData * list string :=
  fun _ _ _ => (None, []).

(** A machine about to construct a reporter. *)
Definition boot (c : Config) (d : gset string) (w : world_t) : State :=
  mkState (new_reporter c) d ∅ w [].

(** A service with no project and nothing to report. *)
Definition empty_service : string -> string -> option string -> AttributeData * list string :=
  fun _ _ _ => (Some [], []).

Definition project_a : Json := JObj [("projectId", JStr "proj-a")].
Definition fw1 : Json := JObj [("name", JStr "fw1")].
Definition fw2 : Json := JObj [("name", JStr "fw2")].

(** One project with two firewalls, whose networks may not be listed. *)
Definition firewall_service : string -> string -> option string -> AttributeData * list string :=
  fun r a p =>
    if String.eqb a "projects" then (Some [project_a], [])
    else if String.eqb a "firewalls" then (Some [fw1; fw2], [])
    else if String.eqb a "networks" then (None, ["networks: permission denied"])
    else (None, []).

(** A discovery that lists the same project twice. *)
Definition twice_service : string -> string -> option string -> AttributeData * list string :=
  fun r a p =>
    if String.eqb a "projects" then (Some [project_a; project_a], [])
    else (None, []).

(** A discovery that is refused: no list, one warning. *)
Definition denied_service : string -> string -> option string -> AttributeData * list string :=
  fun r a p =>
    if String.eqb a "projects" then (None, ["projects: permission denied"])
    else (None, []).

(** A machine whose reporter was constructed on day 100. *)
Definition ready (svc : string -> string -> option string -> AttributeData * list string)
  : State :=
  final (__init__ cfg (boot cfg ∅ (mkWorld [] 100 svc))).

(** A second family of platforms: the world is the clock alone, the service
    answers by its arguments only, and the store opened at any path holds
    [rows]. *)
Record clock_t : Type := mkClock {
  upcoming : list Z;
  shown : Z
}.

Definition clock_tick (c : clock_t) : Z * clock_t :=
  match upcoming c with
  | [] => (shown c, c)
  | d :: rest => (d, mkClock rest d)
  end.

Definition fixed (svc : string -> string -> option string -> AttributeData * list string)
    (rows : Database) : Platform := {|
  World := clock_t;
  api := fun r a p w => (svc r a p, w);
  read_clock := clock_tick;
  date_str := day_name;
  get_full_path := join;
  get_value := lookup_str;
  stored_rows := fun _ => rows
|}.

(** A machine of that family whose reporter was constructed on day 100. *)
Definition fixed_ready
    (svc : string -> string -> option string -> AttributeData * list string)
    (rows : Database) : @State (fixed svc rows) :=
  @final (fixed svc rows) unit
    (@__init__ (fixed svc rows) cfg
       (@mkState (fixed svc rows) (new_reporter cfg) ∅ ∅ (mkClock [] 100) [])).

Definition is_probe_of (path : string) (e : Event) : bool :=
  match e with
  | EvIsPath p _ => String.eqb p path
  | _ => false
  end.

End Demo.

(** ** Reading the event log *)

(** The warnings the engine took over ([self.warnings.extend]). *)
Definition drained (blk : list Event) : list string :=
  flat_map (fun e => match e with EvExtend ws => ws | _ => [] end) blk.

(** The warnings the clients reported, call by call. *)
Definition reported (blk : list Event) : list string :=
  flat_map (fun e => match e with EvFetch _ _ _ _ ws => ws | _ => [] end) blk.

(** The rows inserted into one table. *)
Definition inserted (table : string) (blk : list Event) : list Json :=
  flat_map (fun e => match e with
                     | EvInsert t row => if String.eqb t table then [row] else []
                     | _ => []
                     end) blk.

(** Writes to the two sinks: the store and the report files. *)
Definition is_sink (e : Event) : bool :=
  match e with
  | EvInsert _ _ | EvSave _ _ => true
  | _ => false
  end.

(** The remote calls, without their answers. *)
Inductive Call : Type :=
| CClient (resource : string)
| CFetch (resource attribute project : string).

Definition calls (blk : list Event) : list Call :=
  flat_map (fun e => match e with
                     | EvClient r _ => [CClient r]
                     | EvFetch r a (Some p) _ _ => [CFetch r a p]
                     | _ => []
                     end) blk.

Section Accounting.
Context `{P : Platform}.

(** The sink writes a fetch gives rise to, when reports go to [dir]. *)
Definition sinks_of (dir : string) (e : Event) : list Event :=
  match e with
  | EvFetch _ a (Some p) (Some (x :: _)) _ =>
      [EvSave (get_full_path dir (report_name p a)) x; EvInsert a x]
  | EvFetch _ _ None (Some rows) _ => map (EvInsert "projects") rows
  | _ => []
  end.

(** The calls of attribute collection for one project and one resource
    type, then for a project, in the order the loops make them. *)
Definition resource_calls (project_name : string) (entry : string * list string)
  : list Call :=
  CClient (fst entry) :: map (fun a => CFetch (fst entry) a project_name) (snd entry).

Definition project_calls (attrs : list (string * list string)) (project : Json)
  : list Call :=
  flat_map (resource_calls (get_value project "projectId")) attrs.

(** What a stretch [blk] of the log says about the step from [s] to [s']
    while reports go to [dir]. *)
Record accounts (dir : string) (s s' : State) (blk : list Event) : Prop := {
  acc_reports : reports (self s') = reports (self s);
  acc_previous : previous_reports (self s') = previous_reports (self s);
  acc_config : config (self s') = config (self s);
  acc_trace : trace s' = trace s ++ blk;
  acc_warnings : warnings (self s') = warnings (self s) ++ drained blk;
  acc_tables : forall t, get_table t (database (self s'))
                         = get_table t (database (self s)) ++ inserted t blk;
  acc_sinks : List.filter is_sink blk = flat_map (sinks_of dir) blk
}.

(** The next [n] readings of the clock, starting in world [w]. *)
Fixpoint readings (n : nat) (w : World) : list Z :=
  match n with
  | O => []
  | S n' => fst (read_clock w) :: readings n' (snd (read_clock w))
  end.

(** The report directory of the day [day] days before [today]. *)
Definition dated_dir (cfg : Config) (today : Z) (day : nat) : string :=
  get_full_path (reports_dir cfg) (date_str (today - Z.of_nat day)).

(** An event of the look-back scan that is consistent with one date
    [today]: a clock reading shows [today], a probe looks at the directory
    of one of the listed days before [today]. *)
Definition probe (cfg : Config) (today : Z) (days : list nat) (e : Event) : Prop :=
  match e with
  | EvGetDate day now d => now = today /\ d = date_str (today - Z.of_nat day)
  | EvIsPath path _ => exists day, In day days /\ path = dated_dir cfg today day
  | _ => True
  end.

(** What the scan leaves in [self.previous_reports]: the first probed path
    that exists, and otherwise the last path it assigned. *)
Fixpoint scan (d : gset string) (paths : list string) (prev : option string)
  : option string :=
  match paths with
  | [] => prev
  | p :: rest => if bool_decide (p ∈ d) then Some p else scan d rest (Some p)
  end.

(** The log of a discovery that found [rows] and reported [ws]. *)
Definition extend_log (ws : list string) : list Event :=
  match ws with
  | [] => []
  | _ :: _ => [EvExtend ws]
  end.

Definition discovery_log (data : AttributeData) (ws : list string) : list Event :=
  [EvClient "cloudresourcemanager" "v1";
   EvFetch "cloudresourcemanager" "projects" None data ws]
  ++ extend_log ws
  ++ map (EvInsert "projects") (default [] data).

(** The disk the look-back scan sees: [_setup] has created the reports
    directory and the directory of today before it starts probing. *)
Definition scan_disk (cfg : Config) (today : Z) (d : gset string) : gset string :=
  {[dated_dir cfg today 0]} ∪ ({[reports_dir cfg]} ∪ d).

(** The effect of one logged call on the set of paths and on the JSON
    files; replaying a log applies the calls in order. *)
Definition touch (d : gset string) (e : Event) : gset string :=
  match e with
  | EvCreateDir p => {[p]} ∪ d
  | EvSave p _ => {[p]} ∪ d
  | _ => d
  end.

Definition written (m : gmap string Json) (e : Event) : gmap string Json :=
  match e with
  | EvSave p doc => <[p := doc]> m
  | _ => m
  end.

Definition replay_disk (blk : list Event) (d : gset string) : gset string :=
  fold_left touch blk d.

Definition replay_files (blk : list Event) (m : gmap string Json)
  : gmap string Json :=
  fold_left written blk m.

(** The step from [s] to [s'] changed the disk and the files by what its
    log says, and nothing else. *)
Definition mirrored (s s' : State) : Prop :=
  exists blk,
    trace s' = trace s ++ blk
    /\ disk s' = replay_disk blk (disk s)
    /\ files s' = replay_files blk (files s).

(** The step from [s] to [s'] left what [_setup] resolved alone. *)
Definition same_directories (s s' : State) : Prop :=
  reports (self s') = reports (self s)
  /\ previous_reports (self s') = previous_reports (self s)
  /\ results (self s') = results (self s)
  /\ config (self s') = config (self s)
  /\ database_path (self s') = database_path (self s).

(** A logged fetch carries an answer of the remote service: the data and
    the warnings some world gave to that call. *)
Definition answered (e : Event) : Prop :=
  match e with
  | EvFetch r a p d ws => exists w, fst (api r a p w) = (d, ws)
  | _ => True
  end.

(** The step from [s] to [s'] logged only fetches the service answered. *)
Definition answered_log (s s' : State) : Prop :=
  exists blk, trace s' = trace s ++ blk /\ Forall answered blk.

(** Events that reach the remote service: a client constructed, a fetch. *)
Definition is_remote (e : Event) : bool :=
  match e with
  | EvClient _ _ | EvFetch _ _ _ _ _ => true
  | _ => false
  end.

(** The step from [s] to [s'] did not reach the remote service. *)
Definition quiet_log (s s' : State) : Prop :=
  exists blk, trace s' = trace s ++ blk /\ List.filter is_remote blk = [].

(** A computation keeps a relation between the state it starts in and the
    state it ends in, whether it returns or raises. *)
Definition keeps {A} (R : State -> State -> Prop) (m : M A) : Prop :=
  forall s, R s (final (m s)).

(** The answers of the existence probes in a log, in order. *)
Definition probe_answers (blk : list Event) : list bool :=
  flat_map (fun e => match e with EvIsPath _ found => [found] | _ => [] end) blk.

(** How many clients a list of remote calls constructs, how many fetches
    it makes. *)
Definition is_client (c : Call) : bool :=
  match c with CClient _ => true | CFetch _ _ _ => false end.

Definition is_fetch (c : Call) : bool :=
  match c with CClient _ => false | CFetch _ _ _ => true end.

Definition clients (cs : list Call) : nat := length (List.filter is_client cs).
Definition fetches (cs : list Call) : nat := length (List.filter is_fetch cs).

End Accounting.

(** * Properties *)

Section Proofs.
Context `{P : Platform}.

(** ** The look-back scan *)

Lemma probe_weaken cfg today days days' blk :
  (forall d, In d days -> In d days') ->
  Forall (probe cfg today days) blk -> Forall (probe cfg today days') blk.
Proof.
  intros Hsub. apply List.Forall_impl. intros [] H; cbn in *; auto.
  destruct H as (day & Hin & ->). eauto.
Qed.

Lemma search_previous_spec cfg days : forall s,
  exists s' blk,
    search_previous cfg days s = Returns tt s'
    /\ reports (self s') = reports (self s)
    /\ config (self s') = config (self s)
    /\ database_path (self s') = database_path (self s)
    /\ warnings (self s') = warnings (self s)
    /\ disk s' = disk s
    /\ trace s' = trace s ++ blk
    /\ forall today,
         (forall d, In d (readings (length days) (world s)) -> d = today) ->
         Forall (probe cfg today days) blk
         /\ previous_reports (self s')
            = scan (disk s) (map (dated_dir cfg today) days) (previous_reports (self s)).
Proof.
  induction days as [|day rest IH]; intros s.
  - exists s, []. cbn. rewrite app_nil_r. repeat split. constructor.
  - cbn [search_previous]. unfold bind, get_date, is_path.
    destruct (read_clock (world s)) as [now w] eqn:E. cbn.
    set (path := get_full_path (reports_dir cfg) (date_str (now - Z.of_nat day))).
    destruct (bool_decide (path ∈ disk s)) eqn:Hfound; cbn.
    + eexists _, [EvGetDate day now (date_str (now - Z.of_nat day));
                  EvIsPath path true].
      split; [reflexivity|]. cbn. rewrite <- app_assoc.
      do 6 (split; [reflexivity|]).
      intros today H.
      assert (now = today) by (apply H; rewrite E; now left). subst now.
      split.
      * repeat constructor. exists day. split; [now left | reflexivity].
      * change (dated_dir cfg today day) with path. now rewrite Hfound.
    + match goal with
      | |- context [search_previous cfg rest ?s1] =>
          destruct (IH s1) as (s' & blk & E' & H1 & H2 & H3 & H4 & H5 & H6 & H7)
      end.
      rewrite E'. cbn in H1, H2, H3, H4, H5, H6, H7.
      exists s', ([EvGetDate day now (date_str (now - Z.of_nat day));
                   EvIsPath path false] ++ blk).
      split; [reflexivity|].
      rewrite H6, <- !app_assoc.
      do 6 (split; [assumption || reflexivity|]).
      intros today H. cbn in H.
      assert (now = today) by (apply H; rewrite E; now left). subst now.
      destruct (H7 today) as [HF Hprev].
      { intros d Hd. apply H. rewrite E. now right. }
      split.
      * repeat constructor.
        -- exists day. split; [now left | reflexivity].
        -- eapply probe_weaken; [|exact HF]. intros d Hd. now right.
      * rewrite Hprev. cbn [map scan].
        change (dated_dir cfg today day) with path. now rewrite Hfound.
Qed.

(** ** [_setup] and [__init__] *)

Lemma _setup_spec s :
  let cfg := config (self s) in
  let now := fst (read_clock (world s)) in
  exists s' blk,
    _setup s = Returns tt s'
    /\ reports (self s') = Some (dated_dir cfg now 0)
    /\ config (self s') = cfg
    /\ warnings (self s') = warnings (self s)
    /\ trace s' = trace s ++ blk
    /\ forall today,
         (forall d, In d (readings days_back (world s)) -> d = today) ->
         Forall (probe cfg today (0%nat :: range 1 days_back)) blk
         /\ previous_reports (self s')
            = scan ({[dated_dir cfg today 0]} ∪ ({[reports_dir cfg]} ∪ disk s))
                   (map (dated_dir cfg today) (range 1 days_back))
                   (previous_reports (self s)).
Proof.
  intros cfg now. unfold _setup, bind, create_dir, get_date, print_to_stdout, ret.
  fold cfg. subst now.
  cbn [emit with_self with_world self disk files world trace].
  destruct (read_clock (world s)) as [now w] eqn:E.
  cbn [fst emit with_self with_world self disk files world trace].
  assert (Hlen : days_back = S (length (range 1 days_back))) by reflexivity.
  remember (range 1 days_back) as days eqn:Hdays. clear Hdays.
  match goal with
  | |- context [search_previous cfg days ?s1] =>
      destruct (search_previous_spec cfg days s1)
        as (s1' & blk & E1 & H1 & H2 & H3 & H4 & H5 & H6 & H7)
  end.
  rewrite E1. unfold Database_open.
  cbn in H1, H2, H3, H4, H5, H6, H7. cbn -[days_back readings].
  eexists _, ([EvCreateDir (reports_dir cfg);
               EvGetDate 0 now (date_str (now - 0));
               EvCreateDir (get_full_path (reports_dir cfg) (date_str (now - 0)))]
              ++ blk ++ [EvOpenDatabase (database_path (self s));
                         EvCreateDir (database_path (self s));
                         EvCreateDir (results_dir cfg)]).
  split; [reflexivity|]. cbn -[days_back readings].
  split; [exact H1|]. split; [exact H2|]. split; [exact H4|].
  split. { rewrite H6, <- !app_assoc. reflexivity. }
  intros today H. rewrite Hlen in H. cbn [readings] in H. rewrite E in H.
  assert (now = today) by (apply H; now left). subst now.
  destruct (H7 today) as [HF Hprev].
  { intros d Hd. apply H. now right. }
  split.
  - repeat constructor.
    rewrite Forall_app. split; [|repeat constructor].
    eapply probe_weaken; [|exact HF]. intros d Hd. now right.
  - rewrite Hprev. reflexivity.
Qed.

Lemma __init___spec cfg s :
  exists s' blk,
    __init__ cfg s = Returns tt s'
    /\ reports (self s') = Some (dated_dir cfg (fst (read_clock (world s))) 0)
    /\ config (self s') = cfg
    /\ warnings (self s') = []
    /\ trace s' = trace s ++ blk
    /\ forall today,
         (forall d, In d (readings days_back (world s)) -> d = today) ->
         Forall (probe cfg today (0%nat :: range 1 days_back)) blk
         /\ previous_reports (self s')
            = scan ({[dated_dir cfg today 0]} ∪ ({[reports_dir cfg]} ∪ disk s))
                   (map (dated_dir cfg today) (range 1 days_back)) None.
Proof.
  unfold __init__, bind.
  destruct (_setup_spec (with_self (fun _ => new_reporter cfg) s))
    as (s' & blk & E & H). rewrite E. exists s', blk.
  split; [reflexivity | exact H].
Qed.

(** ** The store *)

Lemma get_table_insert_row (t table : string) (row : Json) (db : Database) :
  get_table t (insert_row table row db)
  = get_table t db ++ (if String.eqb table t then [row] else []).
Proof.
  unfold insert_row, get_table at 1.
  destruct (String.eqb_spec table t) as [->|Hne].
  - now rewrite lookup_insert_eq.
  - rewrite lookup_insert_ne by assumption.
    fold (get_table t db). now rewrite app_nil_r.
Qed.

(** ** Log projections are list homomorphisms *)

Lemma drained_app b1 b2 : drained (b1 ++ b2) = drained b1 ++ drained b2.
Proof. apply flat_map_app. Qed.

Lemma reported_app b1 b2 : reported (b1 ++ b2) = reported b1 ++ reported b2.
Proof. apply flat_map_app. Qed.

Lemma inserted_app t b1 b2 : inserted t (b1 ++ b2) = inserted t b1 ++ inserted t b2.
Proof. apply flat_map_app. Qed.

Lemma calls_app b1 b2 : calls (b1 ++ b2) = calls b1 ++ calls b2.
Proof. apply flat_map_app. Qed.

(** ** Composing accounts *)

Lemma accounts_refl dir s : accounts dir s s [].
Proof.
  constructor; cbn; try reflexivity.
  - now rewrite app_nil_r.
  - now rewrite app_nil_r.
  - intros t. now rewrite app_nil_r.
Qed.

Lemma accounts_trans dir s s1 s2 b1 b2 :
  accounts dir s s1 b1 -> accounts dir s1 s2 b2 -> accounts dir s s2 (b1 ++ b2).
Proof.
  intros [R1 V1 C1 T1 W1 D1 K1] [R2 V2 C2 T2 W2 D2 K2]. constructor.
  - congruence.
  - congruence.
  - congruence.
  - rewrite T2, T1. now rewrite app_assoc.
  - rewrite W2, W1, drained_app. now rewrite app_assoc.
  - intros t. rewrite D2, D1, inserted_app. now rewrite app_assoc.
  - rewrite List.filter_app, flat_map_app. congruence.
Qed.

(** ** The innermost loop *)

Lemma fetch_one_spec dir project_name gcp a s :
  reports (self s) = Some dir ->
  exists s' blk,
    fetch_one project_name gcp a s
    = Returns (mkGCP (gcp_resource gcp) (gcp_version gcp)
                     (gcp_warnings gcp ++ reported blk)) s'
    /\ accounts dir s s' blk
    /\ drained blk = []
    /\ calls blk = [CFetch (gcp_resource gcp) a project_name].
Proof.
  intros Hr. unfold fetch_one, bind, fetch_attribute.
  destruct (api (gcp_resource gcp) a (Some project_name) (world s))
    as [[data ws] w] eqn:E.
  destruct data as [[|x xs]|]; cbn.
  - eexists _, [EvFetch (gcp_resource gcp) a (Some project_name) (Some []) ws].
    cbn. rewrite app_nil_r.
    split; [reflexivity|]. split; [|split; reflexivity].
    constructor; cbn; try reflexivity; try assumption.
    + now rewrite app_nil_r.
    + intros t. now rewrite app_nil_r.
  - unfold _record_attribute_data_reports, _record_attribute_data_to_db,
      bind, self_reports. cbn. rewrite Hr. cbn.
    eexists _, [EvFetch (gcp_resource gcp) a (Some project_name) (Some (x :: xs)) ws;
                EvSave (get_full_path dir (report_name project_name a)) x;
                EvInsert a x]. cbn.
    rewrite app_nil_r.
    split; [reflexivity|]. split; [|split; reflexivity].
    constructor; cbn; try reflexivity; try assumption.
    + now rewrite <- !app_assoc.
    + now rewrite app_nil_r.
    + intros t. rewrite get_table_insert_row.
      destruct (String.eqb a t); reflexivity.
  - eexists _, [EvFetch (gcp_resource gcp) a (Some project_name) None ws].
    cbn. rewrite app_nil_r.
    split; [reflexivity|]. split; [|split; reflexivity].
    constructor; cbn; try reflexivity; try assumption.
    + now rewrite app_nil_r.
    + intros t. now rewrite app_nil_r.
Qed.

Lemma fetch_items_spec dir project_name attrs : forall gcp s,
  reports (self s) = Some dir ->
  exists s' blk,
    fetch_items project_name gcp attrs s
    = Returns (mkGCP (gcp_resource gcp) (gcp_version gcp)
                     (gcp_warnings gcp ++ reported blk)) s'
    /\ accounts dir s s' blk
    /\ drained blk = []
    /\ calls blk = map (fun a => CFetch (gcp_resource gcp) a project_name) attrs.
Proof.
  induction attrs as [|a rest IH]; intros gcp s Hr.
  - exists s, []. cbn. rewrite app_nil_r. destruct gcp.
    split; [reflexivity|]. split; [apply accounts_refl|]. split; reflexivity.
  - cbn [fetch_items]. unfold bind.
    destruct (fetch_one_spec dir project_name gcp a s Hr)
      as (s1 & b1 & E1 & A1 & D1 & C1).
    rewrite E1.
    assert (Hr1 : reports (self s1) = Some dir)
      by (rewrite (acc_reports _ _ _ _ A1); exact Hr).
    destruct (IH (mkGCP (gcp_resource gcp) (gcp_version gcp)
                        (gcp_warnings gcp ++ reported b1)) s1 Hr1)
      as (s2 & b2 & E2 & A2 & D2 & C2).
    rewrite E2. cbn in *.
    exists s2, (b1 ++ b2). rewrite reported_app, drained_app, calls_app, app_assoc.
    split; [reflexivity|]. split; [|split].
    + eapply accounts_trans; eassumption.
    + now rewrite D1, D2.
    + now rewrite C1, C2.
Qed.

(** ** Handing the warnings of a client over *)

Lemma drain_warnings_spec dir gcp s :
  exists s' blk,
    drain_warnings gcp s = Returns tt s'
    /\ accounts dir s s' blk
    /\ drained blk = gcp_warnings gcp
    /\ reported blk = []
    /\ calls blk = [].
Proof.
  unfold drain_warnings. destruct (gcp_warnings gcp) as [|w ws] eqn:E.
  - exists s, []. split; [reflexivity|]. split; [apply accounts_refl|].
    repeat split.
  - eexists _, [EvExtend (w :: ws)]. split; [reflexivity|]. split.
    + constructor; cbn; try reflexivity.
      * now rewrite app_nil_r.
      * intros t. now rewrite app_nil_r.
    + cbn. rewrite app_nil_r. repeat split.
Qed.

Lemma GCPWrapper_new_spec dir r v s :
  accounts dir s (emit (EvClient r v) s) [EvClient r v].
Proof.
  constructor; cbn; try reflexivity.
  - now rewrite app_nil_r.
  - intros t. now rewrite app_nil_r.
Qed.

(** ** One resource type of one project *)

Lemma fetch_resource_spec dir project_name entry s :
  reports (self s) = Some dir ->
  exists s' blk,
    fetch_resource project_name entry s = Returns tt s'
    /\ accounts dir s s' blk
    /\ reported blk = drained blk
    /\ calls blk = resource_calls project_name entry.
Proof.
  intros Hr. destruct entry as [r attrs].
  unfold fetch_resource, bind, GCPWrapper_new.
  pose proof (GCPWrapper_new_spec dir r "v1" s) as A0.
  assert (Hr0 : reports (self (emit (EvClient r "v1") s)) = Some dir) by exact Hr.
  destruct (fetch_items_spec dir project_name attrs (mkGCP r "v1" []) _ Hr0)
    as (s1 & b1 & E1 & A1 & D1 & C1).
  rewrite E1.
  destruct (drain_warnings_spec dir (mkGCP r "v1" ([] ++ reported b1)) s1)
    as (s2 & b2 & E2 & A2 & D2 & R2 & C2).
  cbn [gcp_resource gcp_version gcp_warnings] in *. rewrite E2.
  exists s2, ([EvClient r "v1"] ++ b1 ++ b2). split; [reflexivity|].
  split; [|split].
  - eapply accounts_trans; [exact A0|]. eapply accounts_trans; eassumption.
  - rewrite !reported_app, !drained_app, D1, D2, R2. cbn.
    now rewrite app_nil_r.
  - rewrite !calls_app, C1, C2. cbn. now rewrite app_nil_r.
Qed.

(** ** Loops whose turns keep the books *)

Lemma for_each_spec {X} dir (body : X -> M unit) (expected : X -> list Call) l :
  (forall x s, reports (self s) = Some dir ->
     exists s' blk, body x s = Returns tt s'
       /\ accounts dir s s' blk
       /\ reported blk = drained blk
       /\ calls blk = expected x) ->
  forall s, reports (self s) = Some dir ->
    exists s' blk, for_each l body s = Returns tt s'
      /\ accounts dir s s' blk
      /\ reported blk = drained blk
      /\ calls blk = flat_map expected l.
Proof.
  intros Hbody. induction l as [|x l IH]; intros s Hr.
  - exists s, []. split; [reflexivity|]. split; [apply accounts_refl|].
    split; reflexivity.
  - cbn [for_each]. unfold bind.
    destruct (Hbody x s Hr) as (s1 & b1 & E1 & A1 & B1 & C1). rewrite E1.
    assert (Hr1 : reports (self s1) = Some dir)
      by (rewrite (acc_reports _ _ _ _ A1); exact Hr).
    destruct (IH s1 Hr1) as (s2 & b2 & E2 & A2 & B2 & C2). rewrite E2.
    exists s2, (b1 ++ b2). split; [reflexivity|]. split; [|split].
    + eapply accounts_trans; eassumption.
    + now rewrite reported_app, drained_app, B1, B2.
    + rewrite calls_app, C1, C2. reflexivity.
Qed.

Lemma fetch_project_spec dir attrs project s :
  reports (self s) = Some dir ->
  exists s' blk,
    fetch_project attrs project s = Returns tt s'
    /\ accounts dir s s' blk
    /\ reported blk = drained blk
    /\ calls blk = project_calls attrs project.
Proof.
  intros Hr. unfold fetch_project, project_calls.
  apply (for_each_spec dir); [|exact Hr].
  intros entry s0 Hr0. now apply fetch_resource_spec.
Qed.

(** ** Attribute collection as a whole *)

Lemma _fetch_attributes_for_projects_spec dir s :
  reports (self s) = Some dir ->
  exists s' blk,
    _fetch_attributes_for_projects s = Returns true s'
    /\ accounts dir s s' (EvGetTable "projects" (get_table "projects" (database (self s))) :: blk)
    /\ reported blk = drained blk
    /\ calls blk = flat_map (project_calls (gcp_attributes (config (self s))))
                             (get_table "projects" (database (self s))).
Proof.
  intros Hr. unfold _fetch_attributes_for_projects, bind, database_get_table.
  set (table := get_table "projects" (database (self s))).
  set (s0 := emit (EvGetTable "projects" table) s).
  assert (A0 : accounts dir s s0 [EvGetTable "projects" table]).
  { constructor; cbn; try reflexivity.
    - now rewrite app_nil_r.
    - intros t. now rewrite app_nil_r. }
  destruct (for_each_spec dir (fetch_project (gcp_attributes (config (self s))))
              (project_calls (gcp_attributes (config (self s)))) table
              (fun x s1 H => fetch_project_spec dir _ x s1 H) s0 Hr)
    as (s1 & b1 & E1 & A1 & B1 & C1).
  rewrite E1. exists s1, b1. split; [reflexivity|]. split; [|split; assumption].
  change (EvGetTable "projects" table :: b1) with ([EvGetTable "projects" table] ++ b1).
  eapply accounts_trans; eassumption.
Qed.

(** ** Project discovery *)

Lemma inserted_projects t rows :
  inserted t (map (EvInsert "projects") rows)
  = if String.eqb "projects" t then rows else [].
Proof.
  unfold inserted. induction rows as [|row rows IH]; cbn [map flat_map].
  - now destruct (String.eqb "projects" t).
  - rewrite IH. now destruct (String.eqb "projects" t).
Qed.

Lemma drained_extend_log ws : drained (extend_log ws) = ws.
Proof. destruct ws; cbn; [reflexivity|]. now rewrite app_nil_r. Qed.

Lemma drained_inserts rows : drained (map (EvInsert "projects") rows) = [].
Proof. induction rows; cbn; auto. Qed.

Lemma calls_inserts rows : calls (map (EvInsert "projects") rows) = [].
Proof. induction rows; cbn; auto. Qed.

Lemma reported_inserts rows : reported (map (EvInsert "projects") rows) = [].
Proof. induction rows; cbn; auto. Qed.

Lemma sinks_inserts dir rows :
  List.filter is_sink (map (EvInsert "projects") rows) = map (EvInsert "projects") rows
  /\ flat_map (sinks_of dir) (map (EvInsert "projects") rows) = [].
Proof. induction rows as [|r rows [IH1 IH2]]; cbn; [auto|]. now rewrite IH1, IH2. Qed.

Lemma insert_projects_spec rows : forall s,
  exists s',
    for_each rows (fun project => database_insert "projects" project) s = Returns tt s'
    /\ reports (self s') = reports (self s)
    /\ previous_reports (self s') = previous_reports (self s)
    /\ config (self s') = config (self s)
    /\ warnings (self s') = warnings (self s)
    /\ trace s' = trace s ++ map (EvInsert "projects") rows
    /\ (forall t, get_table t (database (self s'))
                  = get_table t (database (self s))
                    ++ inserted t (map (EvInsert "projects") rows))
    /\ disk s' = disk s /\ files s' = files s /\ world s' = world s.
Proof.
  induction rows as [|row rows IH]; intros s.
  - exists s. cbn [for_each map]. unfold ret.
    repeat split; try (now rewrite app_nil_r).
    intros t. cbn. now rewrite app_nil_r.
  - cbn [for_each]. unfold bind, database_insert at 1.
    destruct (IH (emit (EvInsert "projects" row)
                    (with_self (fun r => set_database
                       (insert_row "projects" row (database r)) r) s)))
      as (s' & E & H1 & H2 & H3 & H4 & H5 & H6 & H7 & H8 & H9).
    rewrite E. exists s'. cbn in *.
    split; [reflexivity|]. repeat split; try assumption.
    + rewrite H5. now rewrite <- app_assoc.
    + intros t. rewrite H6, get_table_insert_row.
      now rewrite <- app_assoc.
Qed.

Lemma discovery_log_reported data ws :
  reported (discovery_log data ws) = ws /\ drained (discovery_log data ws) = ws
  /\ calls (discovery_log data ws) = [CClient "cloudresourcemanager"].
Proof.
  unfold discovery_log.
  rewrite !reported_app, !drained_app, !calls_app, drained_extend_log,
    drained_inserts, reported_inserts, calls_inserts.
  destruct ws; cbn; rewrite ?app_nil_r; auto.
Qed.

Lemma inserted_extend_log t ws : inserted t (extend_log ws) = [].
Proof. now destruct ws. Qed.

Lemma sinks_extend_log dir ws :
  List.filter is_sink (extend_log ws) = [] /\ flat_map (sinks_of dir) (extend_log ws) = [].
Proof. now destruct ws. Qed.

Lemma accounts_discovery dir s s' data ws :
  reports (self s') = reports (self s) ->
  previous_reports (self s') = previous_reports (self s) ->
  config (self s') = config (self s) ->
  trace s' = trace s ++ discovery_log data ws ->
  warnings (self s') = warnings (self s) ++ ws ->
  (forall t, get_table t (database (self s'))
             = get_table t (database (self s))
               ++ inserted t (map (EvInsert "projects") (default [] data))) ->
  accounts dir s s' (discovery_log data ws).
Proof.
  intros H1 H2 H3 H4 H5 H6. constructor; try assumption.
  - rewrite H5. now destruct (discovery_log_reported data ws) as (_ & -> & _).
  - intros t. rewrite H6. unfold discovery_log.
    now rewrite !inserted_app, inserted_extend_log.
  - unfold discovery_log.
    rewrite !List.filter_app, !flat_map_app.
    destruct (sinks_extend_log dir ws) as [-> ->].
    destruct (sinks_inserts dir (default [] data)) as [-> ->].
    cbn. rewrite !app_nil_r. now destruct data.
Qed.

Lemma _fetch_projects_spec dir s data ws w :
  api "cloudresourcemanager" "projects" None (world s) = ((data, ws), w) ->
  exists s',
    _fetch_projects s
    = match data with
      | Some rows => Returns (length rows) s'
      | None => Raises (TypeError "'NoneType' object is not iterable") s'
      end
    /\ accounts dir s s' (discovery_log data ws)
    /\ disk s' = disk s /\ files s' = files s /\ world s' = w.
Proof.
  intros E. unfold _fetch_projects, bind, GCPWrapper_new, fetch_attribute.
  cbn [gcp_resource gcp_version gcp_warnings world emit with_world].
  rewrite E. cbn [app gcp_warnings]. unfold drain_warnings.
  cbn [gcp_warnings].
  destruct ws as [|w0 ws]; destruct data as [rows|];
    try match goal with
      | |- context [for_each rows _ ?s1] =>
          destruct (insert_projects_spec rows s1)
            as (s' & E' & H1 & H2 & H3 & H4 & H5 & H6 & H7 & H8 & H9);
          rewrite E'; exists s'
      | |- context [raise _ ?s1] => exists s1
      end;
    (split; [reflexivity|]); (split; [|cbn in *; auto]);
    apply accounts_discovery; cbn in *; try assumption; try reflexivity;
    rewrite ?app_nil_r, <- ?app_assoc; try assumption; try reflexivity.
  all: try (intros t; now rewrite app_nil_r).
  all: rewrite H5, <- ?app_assoc; reflexivity.
Qed.

Lemma inserted_discovery_log data ws :
  inserted "projects" (discovery_log data ws) = default [] data.
Proof.
  unfold discovery_log.
  rewrite !inserted_app, inserted_extend_log, inserted_projects.
  reflexivity.
Qed.

(** ** The whole run *)

Lemma run_spec dir s data ws w :
  reports (self s) = Some dir ->
  api "cloudresourcemanager" "projects" None (world s) = ((data, ws), w) ->
  let table := get_table "projects" (database (self s)) ++ default [] data in
  exists s' blk,
    run s = match data with
            | Some _ => Returns (Some dir, previous_reports (self s)) s'
            | None => Raises (TypeError "'NoneType' object is not iterable") s'
            end
    /\ accounts dir s s' (discovery_log data ws ++ blk)
    /\ reported blk = drained blk
    /\ match data with
       | Some _ =>
           exists rest, blk = EvGetTable "projects" table :: rest
             /\ calls rest = flat_map (project_calls (gcp_attributes (config (self s)))) table
       | None => blk = []
       end.
Proof.
  intros Hr E table. unfold run, bind.
  destruct (_fetch_projects_spec dir s data ws w E) as (s1 & E1 & A1 & _).
  rewrite E1. destruct data as [rows|].
  - assert (Hr1 : reports (self s1) = Some dir)
      by (rewrite (acc_reports _ _ _ _ A1); exact Hr).
    destruct (_fetch_attributes_for_projects_spec dir s1 Hr1)
      as (s2 & b2 & E2 & A2 & B2 & C2).
    rewrite E2. cbn [print_to_stdout ret].
    rewrite (acc_tables _ _ _ _ A1), inserted_discovery_log in A2, C2.
    rewrite (acc_config _ _ _ _ A1) in C2.
    exists s2, (EvGetTable "projects" table :: b2).
    rewrite (acc_reports _ _ _ _ A2), Hr1,
      (acc_previous _ _ _ _ A2), (acc_previous _ _ _ _ A1).
    split; [reflexivity|]. split; [|split].
    + eapply accounts_trans; eassumption.
    + exact B2.
    + exists b2. split; [reflexivity | exact C2].
  - exists s1, []. rewrite app_nil_r.
    split; [reflexivity|]. split; [exact A1|]. split; reflexivity.
Qed.

(** ** Reading facts off an account *)

Lemma in_reported r a p d ws w blk :
  In (EvFetch r a p d ws) blk -> In w ws -> In w (reported blk).
Proof.
  intros He Hw. unfold reported. apply in_flat_map.
  exists (EvFetch r a p d ws). split; assumption.
Qed.

Lemma in_inserted a x blk : In (EvInsert a x) blk -> In x (inserted a blk).
Proof.
  intros He. unfold inserted. apply in_flat_map.
  exists (EvInsert a x). split; [assumption|].
  rewrite String.eqb_refl. now left.
Qed.

Lemma in_sinks dir blk e e' :
  List.filter is_sink blk = flat_map (sinks_of dir) blk ->
  In e blk -> In e' (sinks_of dir e) -> In e' blk.
Proof.
  intros Heq He He'.
  assert (H : In e' (List.filter is_sink blk)).
  { rewrite Heq. apply in_flat_map. exists e. split; assumption. }
  apply List.filter_In in H. tauto.
Qed.

Lemma scan_in d paths p : scan d paths None = Some p -> In p paths.
Proof.
  intros H.
  assert (G : forall prev, scan d paths prev = Some p -> prev = Some p \/ In p paths).
  { clear H. induction paths as [|q rest IH]; intros prev H; cbn in H.
    - now left.
    - right. destruct (bool_decide (q ∈ d)).
      + left. congruence.
      + destruct (IH _ H) as [E|E]; [left; congruence | now right]. }
  destruct (G None H) as [E|E]; [discriminate | assumption].
Qed.

(** ** What the scan leaves behind *)

Lemma scan_first_found d before p after prev :
  (forall q, In q before -> q ∉ d) -> p ∈ d ->
  scan d (before ++ p :: after) prev = Some p.
Proof.
  revert prev. induction before as [|q before IH]; intros prev Hnone Hp; cbn.
  - now rewrite bool_decide_eq_true_2.
  - rewrite bool_decide_eq_false_2 by (apply Hnone; now left).
    apply IH; [|exact Hp]. intros q' Hq'. apply Hnone. now right.
Qed.

Lemma scan_none_found d paths last prev :
  (forall q, In q (paths ++ [last]) -> q ∉ d) ->
  scan d (paths ++ [last]) prev = Some last.
Proof.
  revert prev. induction paths as [|q paths IH]; intros prev Hnone; cbn.
  - now rewrite bool_decide_eq_false_2 by (apply Hnone; now left).
  - rewrite bool_decide_eq_false_2 by (apply Hnone; now left).
    apply IH. intros q' Hq'. apply Hnone. now right.
Qed.

(** ** Splitting a report name *)

Lemma free_of_app sep s1 s2 :
  free_of sep s1 = true -> free_of sep s2 = true -> free_of sep (s1 +:+ s2) = true.
Proof.
  induction s1 as [|c s1 IH]; intros H1 H2; [exact H2|].
  change (String c s1 +:+ s2) with (String c (s1 +:+ s2)).
  cbn [free_of] in *.
  apply andb_true_iff in H1 as [Hc H1].
  apply andb_true_iff. split; [exact Hc | auto].
Qed.

Lemma split_free sep s : free_of sep s = true -> split sep s = [s].
Proof.
  induction s as [|c s IH]; cbn [split free_of]; intros H; [reflexivity|].
  apply andb_true_iff in H as [Hc H]. apply negb_true_iff in Hc.
  rewrite Hc, (IH H). reflexivity.
Qed.

Lemma split_joined sep s1 s2 :
  free_of sep s1 = true ->
  split sep (s1 +:+ String sep s2) = s1 :: split sep s2.
Proof.
  induction s1 as [|c s1 IH]; intros H.
  - change ("" +:+ String sep s2) with (String sep s2).
    cbn [split]. now rewrite Ascii.eqb_refl.
  - change (String c s1 +:+ String sep s2) with (String c (s1 +:+ String sep s2)).
    cbn [split free_of] in *.
    apply andb_true_iff in H as [Hc H]. apply negb_true_iff in Hc.
    rewrite Hc, (IH H). reflexivity.
Qed.

End Proofs.

(** * The claims *)

Section Claims.
Context `{P : Platform}.

(** Every write of a run to the store or to a report file is the write of a
    fetch result: the sink calls in the log of a run are, in order, the
    inserts of the discovered projects and, for each non-empty attribute
    fetch, the save and the insert of its first item; and the warnings the
    engine took over are the ones the clients reported. *)
Lemma run_sink_writes dir s :
  reports (self s) = Some dir ->
  exists blk,
    trace (final (run s)) = trace s ++ blk
    /\ List.filter is_sink blk = flat_map (sinks_of dir) blk
    /\ drained blk = reported blk.
Proof.
  intros Hr.
  destruct (api "cloudresourcemanager" "projects" None (world s))
    as [[data ws0] w0] eqn:E.
  destruct (run_spec dir s data ws0 w0 Hr E) as (s' & blk & Erun & A & B & _).
  assert (Hfinal : final (run s) = s') by (rewrite Erun; now destruct data).
  rewrite Hfinal. exists (discovery_log data ws0 ++ blk).
  split; [apply (acc_trace _ _ _ _ A)|]. split; [apply (acc_sinks _ _ _ _ A)|].
  rewrite reported_app, drained_app, B.
  now destruct (discovery_log_reported data ws0) as (-> & -> & _).
Qed.

(** C4. A fetch that comes back non-empty puts exactly its first item into
    both sinks: the turn of the loop returns, the table named after the
    attribute gains that one row and no other table changes, the report
    file of the project and attribute holds that item, and the only sink
    calls logged are the save and the insert of that item.  The items
    after the first go nowhere. *)
Theorem fetch_one_records_first_item dir project_name gcp a s x xs ws w :
  reports (self s) = Some dir ->
  api (gcp_resource gcp) a (Some project_name) (world s) = ((Some (x :: xs), ws), w) ->
  let path := get_full_path dir (report_name project_name a) in
  exists s',
    fetch_one project_name gcp a s
    = Returns (mkGCP (gcp_resource gcp) (gcp_version gcp) (gcp_warnings gcp ++ ws)) s'
    /\ get_table a (database (self s')) = get_table a (database (self s)) ++ [x]
    /\ (forall t, t <> a ->
          get_table t (database (self s')) = get_table t (database (self s)))
    /\ files s' = <[path := x]> (files s)
    /\ files s' !! path = Some x
    /\ trace s' = trace s ++ [EvFetch (gcp_resource gcp) a (Some project_name)
                                      (Some (x :: xs)) ws;
                              EvSave path x; EvInsert a x].
Proof.
  intros Hr E path. unfold fetch_one, bind, fetch_attribute. rewrite E. cbn.
  unfold _record_attribute_data_reports, _record_attribute_data_to_db,
    bind, self_reports. cbn. rewrite Hr. cbn.
  eexists. split; [reflexivity|]. cbn. fold path.
  split; [|split; [|split; [|split]]].
  - rewrite get_table_insert_row, String.eqb_refl. reflexivity.
  - intros t Hne. rewrite get_table_insert_row.
    destruct (String.eqb_spec a t) as [->|_]; [congruence|]. now rewrite app_nil_r.
  - reflexivity.
  - apply lookup_insert_eq.
  - now rewrite <- !app_assoc.
Qed.

(** C5. A fetch that comes back empty or absent is skipped: the turn of the
    loop returns normally, [self] (warnings and store included), the disk
    and the report files are what they were, and the fetch is the only
    call logged. *)
Theorem fetch_one_skips_empty project_name gcp a s data ws w :
  api (gcp_resource gcp) a (Some project_name) (world s) = ((data, ws), w) ->
  truthy data = false ->
  exists s',
    fetch_one project_name gcp a s
    = Returns (mkGCP (gcp_resource gcp) (gcp_version gcp) (gcp_warnings gcp ++ ws)) s'
    /\ self s' = self s
    /\ disk s' = disk s
    /\ files s' = files s
    /\ trace s' = trace s ++ [EvFetch (gcp_resource gcp) a (Some project_name) data ws].
Proof.
  intros E Hfalsy. unfold fetch_one, bind, fetch_attribute. rewrite E.
  rewrite Hfalsy. cbn. eexists. split; [reflexivity|]. cbn.
  destruct (self s). repeat split.
Qed.

(** C6 (amended). Discovery appends what it found: when the discovery fetch
    returns a list of N projects, [_fetch_projects] returns N and the
    "projects" table is the table as it was followed by those N rows in
    order.  A table that was empty therefore holds exactly N rows, and
    their projectIds are pairwise distinct when those of the returned list
    are; the engine itself removes no duplicate. *)
Theorem discovery_appends_projects s rows ws w :
  api "cloudresourcemanager" "projects" None (world s) = ((Some rows, ws), w) ->
  exists s',
    _fetch_projects s = Returns (length rows) s'
    /\ get_table "projects" (database (self s'))
       = get_table "projects" (database (self s)) ++ rows
    /\ (get_table "projects" (database (self s)) = [] ->
        length (get_table "projects" (database (self s'))) = length rows
        /\ (NoDup (map (fun r => get_value r "projectId") rows) ->
            NoDup (map (fun r => get_value r "projectId")
                       (get_table "projects" (database (self s')))))).
Proof.
  intros E.
  destruct (_fetch_projects_spec "" s (Some rows) ws w E) as (s' & E' & A & _).
  exists s'. split; [exact E'|].
  assert (HT : get_table "projects" (database (self s'))
               = get_table "projects" (database (self s)) ++ rows).
  { rewrite (acc_tables _ _ _ _ A), inserted_discovery_log. reflexivity. }
  split; [exact HT|]. intros Hempty. rewrite HT, Hempty. cbn. auto.
Qed.

(** C7. The report file of a project and an attribute is saved under the
    name [project@attribute.json] in the current report directory, and
    splitting that name on "@" gives back the project and
    [attribute.json], as long as neither name contains "@". *)
Theorem report_name_round_trip dir a p x xs s :
  reports (self s) = Some dir ->
  free_of "@" p = true ->
  free_of "@" a = true ->
  trace (final (_record_attribute_data_reports a (Some (x :: xs)) p s))
  = trace s ++ [EvSave (get_full_path dir (p +:+ "@" +:+ a +:+ ".json")) x]
  /\ split "@" (p +:+ "@" +:+ a +:+ ".json") = [p; a +:+ ".json"].
Proof.
  intros Hr Hp Ha. split.
  - unfold _record_attribute_data_reports, bind, self_reports. rewrite Hr.
    reflexivity.
  - change (p +:+ "@" +:+ a +:+ ".json") with (p +:+ String "@" (a +:+ ".json")).
    rewrite (split_joined _ _ _ Hp), split_free; [reflexivity|].
    apply free_of_app; [exact Ha | reflexivity].
Qed.

(** C8. The order of a run.  When discovery returns a list, the run returns
    the pair of report directories and its log is: the discovery (client,
    fetch, warnings, inserts), then the read of the "projects" table, then
    attribute collection.  The table read is the stored rows followed by the
    discovered ones; the remote calls of attribute collection are, for each
    row of that table in order, for each resource type of the configuration
    in order, one new client followed by one fetch per attribute name in
    list order. *)
Theorem run_order dir s rows ws w :
  reports (self s) = Some dir ->
  api "cloudresourcemanager" "projects" None (world s) = ((Some rows, ws), w) ->
  let table := get_table "projects" (database (self s)) ++ rows in
  exists s' rest,
    run s = Returns (Some dir, previous_reports (self s)) s'
    /\ trace s' = trace s ++ discovery_log (Some rows) ws
                          ++ EvGetTable "projects" table :: rest
    /\ calls rest
       = flat_map (fun project =>
           flat_map (fun entry =>
             CClient (fst entry)
             :: map (fun attribute =>
                       CFetch (fst entry) attribute (get_value project "projectId"))
                    (snd entry))
             (gcp_attributes (config (self s))))
           table.
Proof.
  intros Hr E table.
  destruct (run_spec dir s (Some rows) ws w Hr E)
    as (s' & blk & Erun & A & _ & rest & -> & C).
  exists s', rest. split; [exact Erun|]. split.
  - apply (acc_trace _ _ _ _ A).
  - exact C.
Qed.

(** C10. The first item of a fetch result is only ever taken under the
    truthiness guard.  Whatever the remote service answers and whatever is
    on disk, constructing a reporter and running it either returns or stops
    at discovery because the project list is absent; no subscript fails.
    Without the guard the subscript does fail: on an empty list and on an
    absent result. *)
Theorem first_item_access_never_fails cfg s :
  match session cfg s with
  | Returns _ _ => True
  | Raises e _ => e = TypeError "'NoneType' object is not iterable"
  end
  /\ (forall a p s0,
        raised (_record_attribute_data_to_db a (Some []) p s0)
        = Some (IndexError "list index out of range"))
  /\ (forall a p s0,
        raised (_record_attribute_data_to_db a None p s0)
        = Some (TypeError "'NoneType' object is not subscriptable")).
Proof.
  split; [|split; reflexivity].
  unfold session, bind.
  destruct (__init___spec cfg s) as (s1 & blk & E & Hrep & _). rewrite E.
  destruct (api "cloudresourcemanager" "projects" None (world s1))
    as [[data ws] w] eqn:Eapi.
  destruct (run_spec _ s1 data ws w Hrep Eapi) as (s' & b & Erun & _).
  rewrite Erun. now destruct data.
Qed.

End Claims.

(** * Runs on the concrete platform *)

Section Runs.
Import Demo.

(** The scenario of a first run on day 100: one project, its networks
    refused with a warning, its firewalls listed. *)
Example first_run :
  let out := session cfg (boot cfg ∅ (mkWorld [] 100 firewall_service)) in
  result out = Some (Some "reports/day100", Some "reports/day71")
  /\ warnings (self (final out)) = ["networks: permission denied"]
  /\ get_table "firewalls" (database (self (final out))) = [fw1]
  /\ files (final out) !! "reports/day100/proj-a@firewalls.json" = Some fw1
  /\ calls (trace (final out))
     = [CClient "cloudresourcemanager"; CClient "compute";
        CFetch "compute" "networks" "proj-a"; CFetch "compute" "firewalls" "proj-a"].
Proof. vm_compute. repeat split. Qed.

(** C1. With no report directory on disk at all, the run on day 100 returns
    as previous report directory the path of day 71, the last one the scan
    assigned, and that path does not exist; the specification wants it
    absent, as [__init__] sets it. *)
Theorem no_prior_report_returns_stale_path :
  let out := session cfg (boot cfg ∅ (mkWorld [] 100 empty_service)) in
  result out = Some (Some (dated_dir cfg 100 0), Some (dated_dir cfg 100 29))
  /\ dated_dir cfg 100 29 = "reports/day71"
  /\ bool_decide (dated_dir cfg 100 29 ∈ disk (final out)) = false.
Proof. vm_compute. repeat split. Qed.

(** C2. With [days_back = 30] and a report directory for the thirtieth day
    before day 100 only, the scan stops at day 29: the directory of day 30
    is never probed and the run returns the path of day 29, which does not
    exist; the specification wants the directory of day 30. *)
Theorem report_thirty_days_back_is_missed :
  let out := session cfg (boot cfg {[dated_dir cfg 100 days_back]}
                               (mkWorld [] 100 empty_service)) in
  bool_decide (dated_dir cfg 100 days_back ∈ disk (final out)) = true
  /\ existsb (is_probe_of (dated_dir cfg 100 days_back)) (trace (final out)) = false
  /\ result out = Some (Some (dated_dir cfg 100 0), Some (dated_dir cfg 100 29))
  /\ bool_decide (dated_dir cfg 100 29 ∈ disk (final out)) = false.
Proof. vm_compute. repeat split. Qed.

(** C4, at the firewalls of proj-a: of the two firewalls only the first is
    recorded. *)
Lemma fetch_one_records_first_item_witness :
  exists s',
    fetch_one "proj-a" (mkGCP "compute" "v1" []) "firewalls" (ready firewall_service)
    = Returns (mkGCP "compute" "v1" ([] ++ [])) s'
    /\ get_table "firewalls" (database (self s'))
       = get_table "firewalls" (database (self (ready firewall_service))) ++ [fw1]
    /\ (forall t, t <> "firewalls" ->
          get_table t (database (self s'))
          = get_table t (database (self (ready firewall_service))))
    /\ files s' = <["reports/day100/proj-a@firewalls.json" := fw1]>
                   (files (ready firewall_service))
    /\ files s' !! "reports/day100/proj-a@firewalls.json" = Some fw1
    /\ trace s' = trace (ready firewall_service)
                  ++ [EvFetch "compute" "firewalls" (Some "proj-a") (Some [fw1; fw2]) [];
                      EvSave "reports/day100/proj-a@firewalls.json" fw1;
                      EvInsert "firewalls" fw1].
Proof.
  apply (fetch_one_records_first_item "reports/day100" "proj-a"
           (mkGCP "compute" "v1" []) "firewalls" (ready firewall_service)
           fw1 [fw2] [] (world (ready firewall_service)));
    reflexivity.
Defined.

(** C5, at the networks of proj-a, which come back absent. *)
Lemma fetch_one_skips_empty_witness :
  exists s',
    fetch_one "proj-a" (mkGCP "compute" "v1" []) "networks" (ready firewall_service)
    = Returns (mkGCP "compute" "v1" ([] ++ ["networks: permission denied"])) s'
    /\ self s' = self (ready firewall_service)
    /\ disk s' = disk (ready firewall_service)
    /\ files s' = files (ready firewall_service)
    /\ trace s' = trace (ready firewall_service)
                  ++ [EvFetch "compute" "networks" (Some "proj-a") None
                              ["networks: permission denied"]].
Proof.
  apply (fetch_one_skips_empty "proj-a" (mkGCP "compute" "v1" []) "networks"
           (ready firewall_service) None ["networks: permission denied"]
           (world (ready firewall_service)));
    reflexivity.
Defined.

(** C6, at a discovery of one project into an empty store. *)
Lemma discovery_appends_projects_witness :
  exists s',
    _fetch_projects (ready firewall_service) = Returns 1%nat s'
    /\ get_table "projects" (database (self s'))
       = get_table "projects" (database (self (ready firewall_service))) ++ [project_a]
    /\ (get_table "projects" (database (self (ready firewall_service))) = [] ->
        length (get_table "projects" (database (self s'))) = 1%nat
        /\ (NoDup (map (fun r => get_value r "projectId") [project_a]) ->
            NoDup (map (fun r => get_value r "projectId")
                       (get_table "projects" (database (self s')))))).
Proof.
  apply (discovery_appends_projects (ready firewall_service) [project_a] []
           (world (ready firewall_service))).
  reflexivity.
Defined.

(** C7, at project p1 and attribute firewalls. *)
Lemma report_name_round_trip_witness :
  trace (final (_record_attribute_data_reports "firewalls" (Some [fw1]) "p1"
                  (ready firewall_service)))
  = trace (ready firewall_service) ++ [EvSave "reports/day100/p1@firewalls.json" fw1]
  /\ split "@" "p1@firewalls.json" = ["p1"; "firewalls.json"].
Proof.
  apply (report_name_round_trip "reports/day100" "firewalls" "p1" fw1 []
           (ready firewall_service)); reflexivity.
Defined.

(** C8, at the first run. *)
Lemma run_order_witness :
  exists s' rest,
    run (ready firewall_service)
    = Returns (Some "reports/day100", previous_reports (self (ready firewall_service))) s'
    /\ trace s' = trace (ready firewall_service)
                  ++ discovery_log (Some [project_a]) []
                  ++ EvGetTable "projects"
                       (get_table "projects" (database (self (ready firewall_service)))
                        ++ [project_a]) :: rest
    /\ calls rest
       = flat_map (fun project =>
           flat_map (fun entry =>
             CClient (fst entry)
             :: map (fun attribute =>
                       CFetch (fst entry) attribute (get_value project "projectId"))
                    (snd entry))
             (gcp_attributes (config (self (ready firewall_service)))))
           (get_table "projects" (database (self (ready firewall_service)))
            ++ [project_a]).
Proof.
  apply (run_order "reports/day100" (ready firewall_service) [project_a] []
           (world (ready firewall_service))); reflexivity.
Defined.

(** C9, as stated, fails when the day changes between two readings: the
    current directory is named after day 100, the first probe is computed
    from day 101, no single date accounts for both, and the scan finds the
    current directory itself as the previous one. *)
Lemma midnight_splits_the_dates :
  let s' := final (__init__ cfg (boot cfg ∅ (mkWorld [100; 101] 101 empty_service))) in
  ~ (exists today, Forall (probe cfg today (0%nat :: range 1 days_back)) (trace s'))
  /\ previous_reports (self s') = reports (self s').
Proof.
  split; [|vm_compute; reflexivity].
  intros [today HF]. rewrite Forall_forall in HF.
  assert (H0 : In (EvGetDate 0 100 "day100")
                  (trace (final (__init__ cfg
                     (boot cfg ∅ (mkWorld [100; 101] 101 empty_service))))))
    by (vm_compute; tauto).
  assert (H1 : In (EvGetDate 1 101 "day100")
                  (trace (final (__init__ cfg
                     (boot cfg ∅ (mkWorld [100; 101] 101 empty_service))))))
    by (vm_compute; tauto).
  apply list_elem_of_In in H0, H1.
  destruct (HF _ H0) as [E0 _]. destruct (HF _ H1) as [E1 _]. lia.
Qed.

End Runs.

(** * Further properties of the reporter *)

Section Further.
Context `{P : Platform}.

(** ** Relations kept along a computation *)

Lemma keeps_ret {A} (R : State -> State -> Prop) (a : A) :
  (forall s, R s s) -> keeps R (ret a).
Proof. intros Hrefl s. apply Hrefl. Qed.

Lemma keeps_raise {A} (R : State -> State -> Prop) (e : Exc) :
  (forall s, R s s) -> keeps R (@raise P A e).
Proof. intros Hrefl s. apply Hrefl. Qed.

Lemma keeps_bind {A B} (R : State -> State -> Prop) (m : M A) (k : A -> M B) :
  (forall s1 s2 s3, R s1 s2 -> R s2 s3 -> R s1 s3) ->
  keeps R m -> (forall a, keeps R (k a)) -> keeps R (bind m k).
Proof.
  intros Htrans Hm Hk s. unfold bind. specialize (Hm s).
  destruct (m s) as [a s1|e s1]; cbn in *.
  - eapply Htrans; [exact Hm | apply Hk].
  - exact Hm.
Qed.

Lemma keeps_for_each {X} (R : State -> State -> Prop) (body : X -> M unit) l :
  (forall s, R s s) ->
  (forall s1 s2 s3, R s1 s2 -> R s2 s3 -> R s1 s3) ->
  (forall x, keeps R (body x)) -> keeps R (for_each l body).
Proof.
  intros Hrefl Htrans Hbody. induction l as [|x l IH]; cbn [for_each].
  - now apply keeps_ret.
  - apply keeps_bind; auto.
Qed.

(** Goals [R s (final (m s))] where [m] was built from the entry state. *)
Ltac as_keeps s :=
  match goal with
  | |- ?R s (final (?m s)) =>
      let HK := fresh "HK" in
      cut (keeps R m); [intros HK; apply HK | clear s]
  end.

Ltac keeps_go Hrefl Htrans :=
  repeat first
    [ solve [auto with keeps]
    | apply keeps_ret; exact Hrefl
    | apply keeps_raise; exact Hrefl
    | apply keeps_for_each; [exact Hrefl | exact Htrans | intros ?]
    | apply keeps_bind; [exact Htrans | | intros ?]
    | match goal with
      | |- keeps _ (let '(_, _) := ?r in _) => destruct r
      | |- keeps _ (if ?b then _ else _) => destruct b
      | |- keeps _ (match ?d with Some _ => _ | None => _ end) => destruct d
      end ].

(** ** The log mirrors the disk and the files *)

Lemma replay_disk_app b1 b2 d :
  replay_disk (b1 ++ b2) d = replay_disk b2 (replay_disk b1 d).
Proof. apply fold_left_app. Qed.

Lemma replay_files_app b1 b2 m :
  replay_files (b1 ++ b2) m = replay_files b2 (replay_files b1 m).
Proof. apply fold_left_app. Qed.

Lemma mirrored_refl s : mirrored s s.
Proof. exists []. cbn. now rewrite app_nil_r. Qed.

Lemma mirrored_trans s1 s2 s3 : mirrored s1 s2 -> mirrored s2 s3 -> mirrored s1 s3.
Proof.
  intros (b1 & T1 & D1 & F1) (b2 & T2 & D2 & F2). exists (b1 ++ b2).
  rewrite T2, T1, D2, D1, F2, F1, replay_disk_app, replay_files_app.
  now rewrite app_assoc.
Qed.

Lemma mirrored_silent s s' :
  trace s' = trace s -> disk s' = disk s -> files s' = files s -> mirrored s s'.
Proof. intros T D F. exists []. cbn. now rewrite app_nil_r. Qed.

Lemma mirrored_step s s' e :
  trace s' = trace s ++ [e] -> disk s' = touch (disk s) e ->
  files s' = written (files s) e -> mirrored s s'.
Proof. intros T D F. exists [e]. auto. Qed.

Ltac mirror_prim :=
  let s := fresh "s" in
  intros s;
  repeat match goal with
    | |- context [read_clock ?w] => destruct (read_clock w) as [? ?]
    | |- context [api ?r ?a ?p ?w] => destruct (api r a p w) as [[? ?] ?]
    | |- context [match gcp_warnings ?g with _ => _ end] => destruct (gcp_warnings g)
    | |- context [match reports ?r with _ => _ end] => destruct (reports r)
    end;
  cbn;
  first [ apply mirrored_silent; reflexivity | eapply mirrored_step; reflexivity ].

Lemma mirrored_get_date day : keeps mirrored (get_date day).
Proof. unfold get_date. mirror_prim. Qed.

Lemma mirrored_create_dir path : keeps mirrored (create_dir path).
Proof. unfold create_dir. mirror_prim. Qed.

Lemma mirrored_is_path path : keeps mirrored (is_path path).
Proof. unfold is_path. mirror_prim. Qed.

Lemma mirrored_save doc path : keeps mirrored (save_to_json_file doc path).
Proof. unfold save_to_json_file. mirror_prim. Qed.

Lemma mirrored_Database_open path : keeps mirrored (Database_open path).
Proof. unfold Database_open. mirror_prim. Qed.

Lemma mirrored_database_insert table row : keeps mirrored (database_insert table row).
Proof. unfold database_insert. mirror_prim. Qed.

Lemma mirrored_database_get_table table : keeps mirrored (database_get_table table).
Proof. unfold database_get_table. mirror_prim. Qed.

Lemma mirrored_GCPWrapper_new r v : keeps mirrored (GCPWrapper_new r v).
Proof. unfold GCPWrapper_new. mirror_prim. Qed.

Lemma mirrored_fetch_attribute gcp a p : keeps mirrored (fetch_attribute gcp a p).
Proof. unfold fetch_attribute. mirror_prim. Qed.

Lemma mirrored_drain_warnings gcp : keeps mirrored (drain_warnings gcp).
Proof. unfold drain_warnings. mirror_prim. Qed.

Lemma mirrored_self_reports : keeps mirrored self_reports.
Proof. unfold self_reports. mirror_prim. Qed.

Lemma mirrored_subscript0 data : keeps mirrored (subscript0 data).
Proof. destruct data as [[|x xs]|]; intros s; apply mirrored_refl. Qed.

Lemma mirrored_with_self {A} (a : A) f :
  keeps mirrored (fun s => Returns a (with_self f s)).
Proof. mirror_prim. Qed.

Lemma mirrored_print : keeps mirrored print_to_stdout.
Proof. intros s. apply mirrored_refl. Qed.

Create HintDb keeps.
#[local] Hint Resolve mirrored_get_date mirrored_create_dir mirrored_is_path
  mirrored_save mirrored_Database_open mirrored_database_insert
  mirrored_database_get_table mirrored_GCPWrapper_new mirrored_fetch_attribute
  mirrored_drain_warnings mirrored_self_reports mirrored_subscript0
  mirrored_with_self mirrored_print : keeps.

Lemma mirrored_fetch_one p gcp a : keeps mirrored (fetch_one p gcp a).
Proof.
  unfold fetch_one, _record_attribute_data_reports, _record_attribute_data_to_db.
  keeps_go mirrored_refl mirrored_trans.
Qed.

Lemma mirrored_fetch_items p attrs : forall gcp, keeps mirrored (fetch_items p gcp attrs).
Proof.
  induction attrs as [|a rest IH]; intros gcp; cbn [fetch_items].
  - apply keeps_ret, mirrored_refl.
  - apply keeps_bind; [exact mirrored_trans | apply mirrored_fetch_one | auto].
Qed.

#[local] Hint Resolve mirrored_fetch_items : keeps.

Lemma mirrored_fetch_project attrs project : keeps mirrored (fetch_project attrs project).
Proof.
  unfold fetch_project. apply keeps_for_each;
    [exact mirrored_refl | exact mirrored_trans |].
  intros [r items]. unfold fetch_resource.
  keeps_go mirrored_refl mirrored_trans.
Qed.

#[local] Hint Resolve mirrored_fetch_project : keeps.

Lemma mirrored__fetch_attributes_for_projects :
  keeps mirrored _fetch_attributes_for_projects.
Proof.
  intros s. unfold _fetch_attributes_for_projects.
  generalize (gcp_attributes (config (self s))). intros attrs. cbv zeta.
  as_keeps s. keeps_go mirrored_refl mirrored_trans.
Qed.

Lemma mirrored__fetch_projects : keeps mirrored _fetch_projects.
Proof. unfold _fetch_projects. keeps_go mirrored_refl mirrored_trans. Qed.

#[local] Hint Resolve mirrored__fetch_attributes_for_projects
  mirrored__fetch_projects : keeps.

Lemma mirrored_run : keeps mirrored run.
Proof.
  unfold run. keeps_go mirrored_refl mirrored_trans.
Qed.

Lemma mirrored_search_previous cfg days : keeps mirrored (search_previous cfg days).
Proof.
  induction days as [|day rest IH]; cbn [search_previous].
  - apply keeps_ret, mirrored_refl.
  - keeps_go mirrored_refl mirrored_trans.
Qed.

#[local] Hint Resolve mirrored_search_previous : keeps.

Lemma mirrored___init__ cfg : keeps mirrored (__init__ cfg).
Proof.
  unfold __init__. apply keeps_bind; [exact mirrored_trans | auto with keeps |].
  intros _ s. unfold _setup.
  generalize (config (self s)) (database_path (self s)). intros c dp. cbv zeta.
  as_keeps s. keeps_go mirrored_refl mirrored_trans.
Qed.

(** ** What [run] leaves alone *)

Lemma same_directories_refl s : same_directories s s.
Proof. repeat split. Qed.

Lemma same_directories_trans s1 s2 s3 :
  same_directories s1 s2 -> same_directories s2 s3 -> same_directories s1 s3.
Proof.
  intros (A1 & A2 & A3 & A4 & A5) (B1 & B2 & B3 & B4 & B5).
  repeat split; congruence.
Qed.

Ltac dirs_prim :=
  let s := fresh "s" in
  intros s;
  repeat match goal with
    | |- context [api ?r ?a ?p ?w] => destruct (api r a p w) as [[? ?] ?]
    | |- context [match gcp_warnings ?g with _ => _ end] => destruct (gcp_warnings g)
    | |- context [match reports ?r with _ => _ end] => destruct (reports r)
    end;
  cbn; repeat split.

Lemma dirs_save doc path : keeps same_directories (save_to_json_file doc path).
Proof. unfold save_to_json_file. dirs_prim. Qed.

Lemma dirs_database_insert table row : keeps same_directories (database_insert table row).
Proof. unfold database_insert. dirs_prim. Qed.

Lemma dirs_database_get_table table : keeps same_directories (database_get_table table).
Proof. unfold database_get_table. dirs_prim. Qed.

Lemma dirs_GCPWrapper_new r v : keeps same_directories (GCPWrapper_new r v).
Proof. unfold GCPWrapper_new. dirs_prim. Qed.

Lemma dirs_fetch_attribute gcp a p : keeps same_directories (fetch_attribute gcp a p).
Proof. unfold fetch_attribute. dirs_prim. Qed.

Lemma dirs_drain_warnings gcp : keeps same_directories (drain_warnings gcp).
Proof. unfold drain_warnings. dirs_prim. Qed.

Lemma dirs_self_reports : keeps same_directories self_reports.
Proof. unfold self_reports. dirs_prim. Qed.

Lemma dirs_subscript0 data : keeps same_directories (subscript0 data).
Proof. destruct data as [[|x xs]|]; intros s; apply same_directories_refl. Qed.

Lemma dirs_print : keeps same_directories print_to_stdout.
Proof. intros s. apply same_directories_refl. Qed.

#[local] Hint Resolve dirs_save dirs_database_insert dirs_database_get_table
  dirs_GCPWrapper_new dirs_fetch_attribute dirs_drain_warnings dirs_self_reports
  dirs_subscript0 dirs_print : keeps.

Lemma dirs_fetch_one p gcp a : keeps same_directories (fetch_one p gcp a).
Proof.
  unfold fetch_one, _record_attribute_data_reports, _record_attribute_data_to_db.
  keeps_go same_directories_refl same_directories_trans.
Qed.

Lemma dirs_fetch_items p attrs :
  forall gcp, keeps same_directories (fetch_items p gcp attrs).
Proof.
  induction attrs as [|a rest IH]; intros gcp; cbn [fetch_items].
  - apply keeps_ret, same_directories_refl.
  - apply keeps_bind;
      [exact same_directories_trans | apply dirs_fetch_one | auto].
Qed.

#[local] Hint Resolve dirs_fetch_items : keeps.

Lemma dirs_fetch_project attrs project :
  keeps same_directories (fetch_project attrs project).
Proof.
  unfold fetch_project. apply keeps_for_each;
    [exact same_directories_refl | exact same_directories_trans |].
  intros [r items]. unfold fetch_resource.
  keeps_go same_directories_refl same_directories_trans.
Qed.

#[local] Hint Resolve dirs_fetch_project : keeps.

Lemma dirs__fetch_attributes_for_projects :
  keeps same_directories _fetch_attributes_for_projects.
Proof.
  intros s. unfold _fetch_attributes_for_projects.
  generalize (gcp_attributes (config (self s))). intros attrs. cbv zeta.
  as_keeps s. keeps_go same_directories_refl same_directories_trans.
Qed.

Lemma dirs__fetch_projects : keeps same_directories _fetch_projects.
Proof.
  unfold _fetch_projects. keeps_go same_directories_refl same_directories_trans.
Qed.

(** ** Logged fetches are answers of the service *)

Lemma answered_log_refl s : answered_log s s.
Proof. exists []. split; [now rewrite app_nil_r | constructor]. Qed.

Lemma answered_log_trans s1 s2 s3 :
  answered_log s1 s2 -> answered_log s2 s3 -> answered_log s1 s3.
Proof.
  intros (b1 & T1 & F1) (b2 & T2 & F2). exists (b1 ++ b2). split.
  - rewrite T2, T1. now rewrite app_assoc.
  - apply Forall_app. split; assumption.
Qed.

Lemma answered_log_step s s' e :
  trace s' = trace s ++ [e] -> answered e -> answered_log s s'.
Proof. intros T H. exists [e]. split; [exact T | repeat constructor; exact H]. Qed.

Lemma answered_fetch_attribute gcp a p : keeps answered_log (fetch_attribute gcp a p).
Proof.
  intros s. unfold fetch_attribute.
  destruct (api (gcp_resource gcp) a p (world s)) as [[d ws] w] eqn:E. cbn.
  eapply answered_log_step; [reflexivity|]. cbn. exists (world s). now rewrite E.
Qed.

Ltac answered_prim :=
  let s := fresh "s" in
  intros s;
  repeat match goal with
    | |- context [match gcp_warnings ?g with _ => _ end] => destruct (gcp_warnings g)
    | |- context [match reports ?r with _ => _ end] => destruct (reports r)
    end;
  cbn;
  first [ apply answered_log_refl
        | eapply answered_log_step; [reflexivity | exact I] ].

Lemma answered_save doc path : keeps answered_log (save_to_json_file doc path).
Proof. unfold save_to_json_file. answered_prim. Qed.

Lemma answered_database_insert table row : keeps answered_log (database_insert table row).
Proof. unfold database_insert. answered_prim. Qed.

Lemma answered_database_get_table table : keeps answered_log (database_get_table table).
Proof. unfold database_get_table. answered_prim. Qed.

Lemma answered_GCPWrapper_new r v : keeps answered_log (GCPWrapper_new r v).
Proof. unfold GCPWrapper_new. answered_prim. Qed.

Lemma answered_drain_warnings gcp : keeps answered_log (drain_warnings gcp).
Proof. unfold drain_warnings. answered_prim. Qed.

Lemma answered_self_reports : keeps answered_log self_reports.
Proof. unfold self_reports. answered_prim. Qed.

Lemma answered_subscript0 data : keeps answered_log (subscript0 data).
Proof. destruct data as [[|x xs]|]; intros s; apply answered_log_refl. Qed.

Lemma answered_print : keeps answered_log print_to_stdout.
Proof. intros s. apply answered_log_refl. Qed.

#[local] Hint Resolve answered_fetch_attribute answered_save answered_database_insert
  answered_database_get_table answered_GCPWrapper_new answered_drain_warnings
  answered_self_reports answered_subscript0 answered_print : keeps.

Lemma answered_fetch_one p gcp a : keeps answered_log (fetch_one p gcp a).
Proof.
  unfold fetch_one, _record_attribute_data_reports, _record_attribute_data_to_db.
  keeps_go answered_log_refl answered_log_trans.
Qed.

Lemma answered_fetch_items p attrs :
  forall gcp, keeps answered_log (fetch_items p gcp attrs).
Proof.
  induction attrs as [|a rest IH]; intros gcp; cbn [fetch_items].
  - apply keeps_ret, answered_log_refl.
  - apply keeps_bind;
      [exact answered_log_trans | apply answered_fetch_one | auto].
Qed.

#[local] Hint Resolve answered_fetch_items : keeps.

Lemma answered_fetch_project attrs project :
  keeps answered_log (fetch_project attrs project).
Proof.
  unfold fetch_project. apply keeps_for_each;
    [exact answered_log_refl | exact answered_log_trans |].
  intros [r items]. unfold fetch_resource.
  keeps_go answered_log_refl answered_log_trans.
Qed.

#[local] Hint Resolve answered_fetch_project : keeps.

Lemma answered__fetch_attributes_for_projects :
  keeps answered_log _fetch_attributes_for_projects.
Proof.
  intros s. unfold _fetch_attributes_for_projects.
  generalize (gcp_attributes (config (self s))). intros attrs. cbv zeta.
  as_keeps s. keeps_go answered_log_refl answered_log_trans.
Qed.

Lemma answered__fetch_projects : keeps answered_log _fetch_projects.
Proof.
  unfold _fetch_projects. keeps_go answered_log_refl answered_log_trans.
Qed.

#[local] Hint Resolve answered__fetch_attributes_for_projects
  answered__fetch_projects : keeps.

Lemma answered_run : keeps answered_log run.
Proof. unfold run. keeps_go answered_log_refl answered_log_trans. Qed.

(** ** The constructor does not reach the remote service *)

Lemma quiet_log_refl s : quiet_log s s.
Proof. exists []. split; [now rewrite app_nil_r | reflexivity]. Qed.

Lemma quiet_log_trans s1 s2 s3 : quiet_log s1 s2 -> quiet_log s2 s3 -> quiet_log s1 s3.
Proof.
  intros (b1 & T1 & F1) (b2 & T2 & F2). exists (b1 ++ b2). split.
  - rewrite T2, T1. now rewrite app_assoc.
  - now rewrite List.filter_app, F1, F2.
Qed.

Ltac quiet_prim :=
  let s := fresh "s" in
  intros s;
  repeat match goal with
    | |- context [read_clock ?w] => destruct (read_clock w) as [? ?]
    end;
  cbn;
  first [ apply quiet_log_refl
        | exists []; split; [cbn; now rewrite app_nil_r | reflexivity]
        | eexists [_]; split; reflexivity ].

Lemma quiet_get_date day : keeps quiet_log (get_date day).
Proof. unfold get_date. quiet_prim. Qed.

Lemma quiet_create_dir path : keeps quiet_log (create_dir path).
Proof. unfold create_dir. quiet_prim. Qed.

Lemma quiet_is_path path : keeps quiet_log (is_path path).
Proof. unfold is_path. quiet_prim. Qed.

Lemma quiet_Database_open path : keeps quiet_log (Database_open path).
Proof. unfold Database_open. quiet_prim. Qed.

Lemma quiet_with_self {A} (a : A) f :
  keeps quiet_log (fun s => Returns a (with_self f s)).
Proof. quiet_prim. Qed.

Lemma quiet_print : keeps quiet_log print_to_stdout.
Proof. intros s. apply quiet_log_refl. Qed.

#[local] Hint Resolve quiet_get_date quiet_create_dir quiet_is_path
  quiet_Database_open quiet_with_self quiet_print : keeps.

Lemma quiet_search_previous cfg days : keeps quiet_log (search_previous cfg days).
Proof.
  induction days as [|day rest IH]; cbn [search_previous].
  - apply keeps_ret, quiet_log_refl.
  - keeps_go quiet_log_refl quiet_log_trans.
Qed.

#[local] Hint Resolve quiet_search_previous : keeps.

Lemma quiet___init__ cfg : keeps quiet_log (__init__ cfg).
Proof.
  unfold __init__. apply keeps_bind; [exact quiet_log_trans | auto with keeps |].
  intros _ s. unfold _setup.
  generalize (config (self s)) (database_path (self s)). intros c dp. cbv zeta.
  as_keeps s. keeps_go quiet_log_refl quiet_log_trans.
Qed.

End Further.

Section Extras.
Context `{P : Platform}.

(** ** Reading a replayed log *)

Lemma replay_files_lookup blk : forall (m : gmap string Json) path,
  replay_files blk m !! path = m !! path
  \/ exists doc, In (EvSave path doc) blk /\ replay_files blk m !! path = Some doc.
Proof.
  unfold replay_files.
  induction blk as [|e rest IH]; intros m path; cbn [fold_left]; [now left|].
  destruct (IH (written m e) path) as [E|(doc & Hin & E)].
  - rewrite E. destruct e; cbn [written]; try (now left).
    destruct (decide (path0 = path)) as [->|Hne].
    + right. exists doc. split; [now left|]. apply lookup_insert_eq.
    + left. now rewrite lookup_insert_ne.
  - right. exists doc. split; [now right | exact E].
Qed.

(** ** Where a sink write comes from *)

Lemma save_origin dir blk path doc :
  List.filter is_sink blk = flat_map (sinks_of dir) blk ->
  In (EvSave path doc) blk ->
  exists r a p xs ws,
    In (EvFetch r a (Some p) (Some (doc :: xs)) ws) blk
    /\ path = get_full_path dir (report_name p a).
Proof.
  intros Heq Hin.
  assert (H : In (EvSave path doc) (List.filter is_sink blk))
    by (apply List.filter_In; split; [exact Hin | reflexivity]).
  rewrite Heq in H. apply in_flat_map in H as (e & He & Hs).
  destruct e; cbn in Hs; try contradiction.
  destruct project as [p|].
  - destruct data as [[|x xs]|]; try contradiction.
    destruct Hs as [Hs|[Hs|[]]]; [|discriminate].
    injection Hs as <- <-. eauto 10.
  - destruct data as [rows|]; [|contradiction].
    apply in_map_iff in Hs as (row & Hrow & _). discriminate.
Qed.

Lemma insert_origin dir blk t row :
  List.filter is_sink blk = flat_map (sinks_of dir) blk ->
  In (EvInsert t row) blk ->
  (exists r p xs ws, In (EvFetch r t (Some p) (Some (row :: xs)) ws) blk)
  \/ (t = "projects"
      /\ exists r a rows ws, In (EvFetch r a None (Some rows) ws) blk /\ In row rows).
Proof.
  intros Heq Hin.
  assert (H : In (EvInsert t row) (List.filter is_sink blk))
    by (apply List.filter_In; split; [exact Hin | reflexivity]).
  rewrite Heq in H. apply in_flat_map in H as (e & He & Hs).
  destruct e; cbn in Hs; try contradiction.
  destruct project as [p|].
  - destruct data as [[|x xs]|]; try contradiction.
    destruct Hs as [Hs|[Hs|[]]]; [discriminate|].
    injection Hs as <- <-. left. eauto 10.
  - destruct data as [rows|]; [|contradiction].
    apply in_map_iff in Hs as (row' & Hrow & Hin').
    injection Hrow as <- <-. right. split; [reflexivity|]. eauto 10.
Qed.

Lemma inserted_in t row blk : In row (inserted t blk) -> In (EvInsert t row) blk.
Proof.
  unfold inserted. intros H. apply in_flat_map in H as (e & He & Hs).
  destruct e; try contradiction.
  destruct (String.eqb_spec table t) as [->|_]; [|contradiction].
  destruct Hs as [->|[]]. exact He.
Qed.

(** The log of [run], with everything the accounts say of it. *)
Lemma run_log dir s :
  reports (self s) = Some dir ->
  exists blk, accounts dir s (final (run s)) blk.
Proof.
  intros Hr.
  destruct (api "cloudresourcemanager" "projects" None (world s))
    as [[data ws0] w0] eqn:E.
  destruct (run_spec dir s data ws0 w0 Hr E) as (s' & blk & Erun & A & _).
  assert (Hfinal : final (run s) = s') by (rewrite Erun; now destruct data).
  rewrite Hfinal. eauto.
Qed.

(** X8. Every row a run adds to the store comes from a fetch of that run.
    Each table ends as the table it was followed by the added rows, and an
    added row is either the first item of a non-empty fetch of the
    attribute the table is named after, or, in the "projects" table, one
    of the projects the discovery listed.  No row is removed or moved. *)
Theorem run_rows_come_from_fetches dir s :
  reports (self s) = Some dir ->
  exists blk,
    trace (final (run s)) = trace s ++ blk
    /\ forall t, exists added,
         get_table t (database (self (final (run s))))
         = get_table t (database (self s)) ++ added
         /\ forall row, In row added ->
              (exists r p xs ws,
                 In (EvFetch r t (Some p) (Some (row :: xs)) ws) blk)
              \/ (t = "projects"
                  /\ exists r a rows ws,
                       In (EvFetch r a None (Some rows) ws) blk /\ In row rows).
Proof.
  intros Hr. destruct (run_log dir s Hr) as (blk & A).
  exists blk. split; [apply (acc_trace _ _ _ _ A)|].
  intros t. exists (inserted t blk). split; [apply (acc_tables _ _ _ _ A)|].
  intros row Hrow. apply (insert_origin dir); [apply (acc_sinks _ _ _ _ A)|].
  now apply inserted_in.
Qed.

(** X9. A run changes no file but the report files it saves.  After the
    run, the content at any path is what it was, or it is the first item of
    a non-empty fetch of the run for a project and an attribute whose
    report name, in the current report directory, is that path. *)
Theorem run_changes_only_report_files dir s :
  reports (self s) = Some dir ->
  exists blk,
    trace (final (run s)) = trace s ++ blk
    /\ forall path,
         files (final (run s)) !! path = files s !! path
         \/ exists r a p doc xs ws,
              In (EvFetch r a (Some p) (Some (doc :: xs)) ws) blk
              /\ path = get_full_path dir (report_name p a)
              /\ files (final (run s)) !! path = Some doc.
Proof.
  intros Hr. destruct (run_log dir s Hr) as (blk & A).
  destruct (mirrored_run s) as (blk' & T & _ & F).
  assert (blk' = blk).
  { rewrite (acc_trace _ _ _ _ A) in T. now apply app_inv_head in T. }
  subst blk'. exists blk. split; [apply (acc_trace _ _ _ _ A)|].
  intros path. rewrite F.
  destruct (replay_files_lookup blk (files s) path) as [E|(doc & Hin & E)];
    [now left|]. right.
  destruct (save_origin dir blk path doc (acc_sinks _ _ _ _ A) Hin)
    as (r & a & p & xs & ws & He & ->).
  exists r, a, p, doc, xs, ws. auto.
Qed.

(** X12. [run] leaves alone what [_setup] resolved, and returns it: in the
    state a run ends in, returning or raising, the two report directories,
    the results path, the configuration and the database path are those
    of the state it started in, and a value it returns is the pair of
    report directories of that state. *)
Theorem run_returns_what_setup_resolved s :
  same_directories s (final (run s))
  /\ (result (run s) = None
      \/ result (run s) = Some (reports (self s), previous_reports (self s))).
Proof.
  unfold run, bind.
  pose proof (dirs__fetch_projects s) as H1.
  destruct (_fetch_projects s) as [n s1|e s1]; cbn [final result] in H1 |- *.
  - pose proof (dirs__fetch_attributes_for_projects s1) as H2.
    destruct (_fetch_attributes_for_projects s1) as [b s2|e s2];
      cbn [final result print_to_stdout ret] in H2 |- *.
    + pose proof (same_directories_trans _ _ _ H1 H2) as H.
      split; [exact H|]. right.
      destruct H as (-> & -> & _). reflexivity.
    + split; [eapply same_directories_trans; eassumption | now left].
  - split; [exact H1 | now left].
Qed.

(** ** Counting remote calls *)

Lemma filter_flat_map_length {A B} (f : B -> bool) (g : A -> list B) l :
  length (List.filter f (flat_map g l))
  = list_sum (map (fun x => length (List.filter f (g x))) l).
Proof.
  induction l as [|x l IH]; [reflexivity|].
  cbn [flat_map map].
  change (list_sum (?a :: ?l)) with (a + list_sum l)%nat.
  now rewrite List.filter_app, List.length_app, IH.
Qed.

Lemma list_sum_const {A} (c : nat) (l : list A) :
  list_sum (map (fun _ => c) l) = (length l * c)%nat.
Proof.
  induction l as [|x l IH]; [reflexivity|].
  change (c + list_sum (map (fun _ => c) l) = c + length l * c)%nat.
  now rewrite IH.
Qed.

Lemma filter_fetch_map r p (items : list string) :
  List.filter is_fetch (map (fun a => CFetch r a p) items)
  = map (fun a => CFetch r a p) items
  /\ List.filter is_client (map (fun a => CFetch r a p) items) = [].
Proof. induction items as [|a items [IH1 IH2]]; cbn; [auto|]. now rewrite IH1, IH2. Qed.

Lemma project_calls_count attrs project :
  clients (project_calls attrs project) = length attrs
  /\ fetches (project_calls attrs project)
     = list_sum (map (fun entry => length (snd entry)) attrs).
Proof.
  unfold clients, fetches, project_calls. rewrite !filter_flat_map_length. split.
  - rewrite <- (Nat.mul_1_r (length attrs)), <- list_sum_const. f_equal.
    apply map_ext. intros [r items]. cbn.
    now destruct (filter_fetch_map r (get_value project "projectId") items) as [_ ->].
  - f_equal. apply map_ext. intros [r items]. cbn.
    destruct (filter_fetch_map r (get_value project "projectId") items) as [-> _].
    apply length_map.
Qed.

(** X7. Attribute collection makes one client per stored project and
    resource type, and one fetch per stored project and configured
    attribute name: with [n] rows in the "projects" table it constructs
    [n] times the number of resource types clients and makes [n] times the
    number of attribute names fetches; with no project or an empty
    configuration it contacts nothing. *)
Theorem collection_call_counts dir s :
  reports (self s) = Some dir ->
  let table := get_table "projects" (database (self s)) in
  let attrs := gcp_attributes (config (self s)) in
  exists s' blk,
    _fetch_attributes_for_projects s = Returns true s'
    /\ trace s' = trace s ++ EvGetTable "projects" table :: blk
    /\ clients (calls blk) = (length table * length attrs)%nat
    /\ fetches (calls blk)
       = (length table * list_sum (map (fun entry => length (snd entry)) attrs))%nat.
Proof.
  intros Hr table attrs.
  destruct (_fetch_attributes_for_projects_spec dir s Hr) as (s' & blk & E & A & _ & C).
  exists s', blk. split; [exact E|]. split; [apply (acc_trace _ _ _ _ A)|].
  fold table attrs in C. rewrite C. unfold clients, fetches.
  rewrite !filter_flat_map_length, <- !list_sum_const. split.
  - f_equal. apply map_ext. intros project.
    apply (project_calls_count attrs project).
  - f_equal. apply map_ext. intros project.
    apply (project_calls_count attrs project).
Qed.

(** ** Discovery without a project list *)

(** X5. When the discovery fetch comes back absent, [run] raises the
    TypeError of iterating [None] right after discovery: the warnings the
    discovery client reported are already taken over, no table and no file
    has changed, and nothing but the discovery client and its one fetch
    was called. *)
Theorem run_stops_when_project_list_absent s ws w :
  api "cloudresourcemanager" "projects" None (world s) = ((None, ws), w) ->
  exists s',
    run s = Raises (TypeError "'NoneType' object is not iterable") s'
    /\ warnings (self s') = warnings (self s) ++ ws
    /\ (forall t, get_table t (database (self s')) = get_table t (database (self s)))
    /\ disk s' = disk s
    /\ files s' = files s
    /\ trace s' = trace s
                  ++ [EvClient "cloudresourcemanager" "v1";
                      EvFetch "cloudresourcemanager" "projects" None None ws]
                  ++ extend_log ws.
Proof.
  intros E. unfold run, bind.
  destruct (_fetch_projects_spec "" s None ws w E) as (s' & E' & A & D & F & _).
  rewrite E'. exists s'. split; [reflexivity|].
  split; [|split; [|split; [exact D|split; [exact F|]]]].
  - rewrite (acc_warnings _ _ _ _ A).
    now destruct (discovery_log_reported None ws) as (_ & -> & _).
  - intros t. rewrite (acc_tables _ _ _ _ A).
    unfold discovery_log. rewrite !inserted_app, inserted_extend_log.
    cbn. now rewrite app_nil_r.
  - rewrite (acc_trace _ _ _ _ A). unfold discovery_log. cbn [default map].
    now rewrite app_nil_r.
Qed.

(** X6. Discovery twice on the same reporter appends twice: after two
    calls of [_fetch_projects] the "projects" table is the table as it was,
    then the first list, then the second, and a project listed both times
    has two rows, so the projectIds of the table are not pairwise
    distinct. *)
Theorem discovery_twice_appends_twice s rows ws w rows' ws' w' :
  api "cloudresourcemanager" "projects" None (world s) = ((Some rows, ws), w) ->
  api "cloudresourcemanager" "projects" None w = ((Some rows', ws'), w') ->
  exists s',
    bind _fetch_projects (fun _ => _fetch_projects) s = Returns (length rows') s'
    /\ get_table "projects" (database (self s'))
       = get_table "projects" (database (self s)) ++ rows ++ rows'
    /\ forall row, In row rows -> In row rows' ->
         ~ NoDup (map (fun r => get_value r "projectId")
                      (get_table "projects" (database (self s')))).
Proof.
  intros E E'. unfold bind.
  destruct (_fetch_projects_spec "" s (Some rows) ws w E) as (s1 & E1 & A1 & _ & _ & W1).
  rewrite E1. rewrite <- W1 in E'.
  destruct (_fetch_projects_spec "" s1 (Some rows') ws' w' E') as (s2 & E2 & A2 & _).
  rewrite E2. exists s2. split; [reflexivity|].
  assert (HT : get_table "projects" (database (self s2))
               = get_table "projects" (database (self s)) ++ rows ++ rows').
  { rewrite (acc_tables _ _ _ _ A2), (acc_tables _ _ _ _ A1),
      !inserted_discovery_log. cbn [default]. now rewrite app_assoc. }
  split; [exact HT|]. intros row H1 H2 HN. rewrite HT, !map_app in HN.
  apply NoDup_app in HN as (_ & _ & HN).
  apply NoDup_app in HN as (_ & Hdisj & _).
  apply (Hdisj (get_value row "projectId")); apply list_elem_of_In;
    apply in_map_iff; eauto.
Qed.

(** ** The shape of the look-back scan *)

Lemma probe_answers_app b1 b2 :
  probe_answers (b1 ++ b2) = probe_answers b1 ++ probe_answers b2.
Proof. apply flat_map_app. Qed.

Lemma search_previous_shape cfg days : forall s,
  exists s' blk,
    search_previous cfg days s = Returns tt s'
    /\ trace s' = trace s ++ blk
    /\ disk s' = disk s
    /\ files s' = files s
    /\ reports (self s') = reports (self s)
    /\ results (self s') = results (self s)
    /\ database (self s') = database (self s)
    /\ warnings (self s') = warnings (self s)
    /\ calls blk = []
    /\ reported blk = []
    /\ ((probe_answers blk = repeat false (length days)
         /\ match days with
            | [] => previous_reports (self s') = previous_reports (self s)
            | _ :: _ => exists p, previous_reports (self s') = Some p /\ p ∉ disk s
            end)
        \/ (exists k p,
              (k < length days)%nat
              /\ probe_answers blk = repeat false k ++ [true]
              /\ previous_reports (self s') = Some p
              /\ p ∈ disk s)).
Proof.
  induction days as [|day rest IH]; intros s.
  - exists s, []. cbn. rewrite app_nil_r. repeat split. left. split; reflexivity.
  - cbn [search_previous]. unfold bind, get_date, is_path.
    destruct (read_clock (world s)) as [now w] eqn:E. cbn.
    set (path := get_full_path (reports_dir cfg) (date_str (now - Z.of_nat day))).
    destruct (bool_decide (path ∈ disk s)) eqn:Hfound; cbn.
    + eexists _, [EvGetDate day now (date_str (now - Z.of_nat day));
                  EvIsPath path true].
      split; [reflexivity|]. cbn. rewrite <- app_assoc.
      do 9 (split; [reflexivity|]).
      right. exists 0%nat, path. split; [lia|]. split; [reflexivity|].
      split; [reflexivity|]. now apply bool_decide_eq_true in Hfound.
    + apply bool_decide_eq_false in Hfound.
      match goal with
      | |- context [search_previous cfg rest ?s1] =>
          destruct (IH s1)
            as (s' & blk & E' & T & D & F & R & U & B & W & C & Q & Hshape)
      end.
      rewrite E'. cbn in T, D, F, R, U, B, W, Hshape.
      exists s', ([EvGetDate day now (date_str (now - Z.of_nat day));
                   EvIsPath path false] ++ blk).
      split; [reflexivity|]. rewrite T, <- !app_assoc.
      do 7 (split; [assumption || reflexivity|]).
      split; [rewrite calls_app, C; reflexivity|].
      split; [rewrite reported_app, Q; reflexivity|].
      rewrite probe_answers_app.
      destruct Hshape as [[HA HP]|(k & p & Hk & HA & HP & Hin)].
      * left. split; [rewrite HA; reflexivity|].
        destruct rest as [|day' rest'].
        -- exists path. split; [exact HP | exact Hfound].
        -- destruct HP as (p & HP & Hp). exists p. split; assumption.
      * right. exists (S k), p. split; [cbn; lia|].
        split; [rewrite HA; reflexivity|]. split; assumption.
Qed.

Lemma _setup_frame s :
  let cfg := config (self s) in
  let current := dated_dir cfg (fst (read_clock (world s))) 0 in
  let scanned := {[current]} ∪ ({[reports_dir cfg]} ∪ disk s) in
  exists s' blk,
    _setup s = Returns tt s'
    /\ trace s' = trace s ++ blk
    /\ disk s' = {[results_dir cfg]} ∪ ({[database_path (self s)]} ∪ scanned)
    /\ files s' = files s
    /\ reports (self s') = Some current
    /\ results (self s')
       = Some (get_full_path (results_dir cfg) (results_log_file cfg))
    /\ database (self s') = stored_rows (database_path (self s))
    /\ warnings (self s') = warnings (self s)
    /\ calls blk = []
    /\ reported blk = []
    /\ ((probe_answers blk = repeat false (days_back - 1)
         /\ exists p, previous_reports (self s') = Some p /\ p ∉ scanned)
        \/ (exists k p,
              (k < days_back - 1)%nat
              /\ probe_answers blk = repeat false k ++ [true]
              /\ previous_reports (self s') = Some p
              /\ p ∈ scanned)).
Proof.
  intros cfg current scanned. subst current scanned.
  unfold _setup, bind, create_dir, get_date, print_to_stdout, ret.
  fold cfg.
  cbn [emit with_self with_world self disk files world trace].
  destruct (read_clock (world s)) as [now w] eqn:E.
  cbn [fst emit with_self with_world self disk files world trace].
  assert (Hlen : (days_back - 1)%nat = length (range 1 days_back)) by reflexivity.
  assert (Hne : range 1 days_back <> []) by discriminate.
  rewrite Hlen.
  remember (range 1 days_back) as days eqn:Hdays. clear Hdays Hlen.
  match goal with
  | |- context [search_previous cfg days ?s1] =>
      destruct (search_previous_shape cfg days s1)
        as (s1' & blk & E1 & T & D & F & R & U & B & W & C & Q & Hshape)
  end.
  rewrite E1. unfold Database_open.
  cbn in T, D, F, R, U, B, W, Hshape. cbn -[days_back].
  eexists _, ([EvCreateDir (reports_dir cfg);
               EvGetDate 0 now (date_str (now - 0));
               EvCreateDir (get_full_path (reports_dir cfg) (date_str (now - 0)))]
              ++ blk ++ [EvOpenDatabase (database_path (self s));
                         EvCreateDir (database_path (self s));
                         EvCreateDir (results_dir cfg)]).
  split; [reflexivity|]. cbn -[days_back].
  split. { rewrite T, <- !app_assoc. reflexivity. }
  split. { rewrite D. reflexivity. }
  split; [exact F|]. split; [exact R|]. split; [reflexivity|].
  split; [reflexivity|]. split; [exact W|].
  split. { rewrite calls_app, C. reflexivity. }
  split. { rewrite reported_app, Q. reflexivity. }
  rewrite probe_answers_app. cbn [probe_answers flat_map app]. rewrite app_nil_r.
  destruct Hshape as [[HA HP]|Hhit].
  - left. split; [exact HA|]. destruct days; [congruence | exact HP].
  - right. exact Hhit.
Qed.

Lemma __init___frame cfg s :
  let current := dated_dir cfg (fst (read_clock (world s))) 0 in
  let scanned := {[current]} ∪ ({[reports_dir cfg]} ∪ disk s) in
  exists s' blk,
    __init__ cfg s = Returns tt s'
    /\ trace s' = trace s ++ blk
    /\ disk s' = {[results_dir cfg]} ∪ ({[database_json cfg]} ∪ scanned)
    /\ files s' = files s
    /\ reports (self s') = Some current
    /\ results (self s')
       = Some (get_full_path (results_dir cfg) (results_log_file cfg))
    /\ database (self s') = stored_rows (database_json cfg)
    /\ warnings (self s') = []
    /\ calls blk = []
    /\ reported blk = []
    /\ ((probe_answers blk = repeat false (days_back - 1)
         /\ exists p, previous_reports (self s') = Some p /\ p ∉ scanned)
        \/ (exists k p,
              (k < days_back - 1)%nat
              /\ probe_answers blk = repeat false k ++ [true]
              /\ previous_reports (self s') = Some p
              /\ p ∈ scanned)).
Proof.
  intros current scanned. unfold __init__, bind.
  destruct (_setup_frame (with_self (fun _ => new_reporter cfg) s))
    as (s' & blk & E & H). rewrite E. exists s', blk.
  split; [reflexivity | exact H].
Qed.

Lemma range_split d :
  (1 <= d < days_back)%nat ->
  range 1 days_back = seq 1 (d - 1) ++ d :: seq (S d) (days_back - 1 - d).
Proof.
  intros Hd. unfold range.
  assert (Hn : (days_back - 1 = (d - 1) + S (days_back - 1 - d))%nat)
    by (unfold days_back in *; lia).
  rewrite Hn at 1. rewrite seq_app. cbn [seq].
  assert (H : (1 + (d - 1))%nat = d) by lia.
  now rewrite H.
Qed.

(** X2. After the constructor [self.previous_reports] is always a path,
    never [None], whatever the clock and the disk.  Either the scan made
    all its 29 probes without a hit, and the path is one that was not on
    disk when probed (it is neither the report directory of the day nor
    the reports directory); or the scan stopped at its first hit, after
    fewer than 29 misses, and the path exists on disk. *)
Theorem previous_reports_after_init cfg s :
  exists s' blk p,
    __init__ cfg s = Returns tt s'
    /\ trace s' = trace s ++ blk
    /\ previous_reports (self s') = Some p
    /\ ((probe_answers blk = repeat false (days_back - 1)
         /\ (p ∉ disk s)
         /\ reports (self s') <> Some p
         /\ p <> reports_dir cfg)
        \/ (exists k, (k < days_back - 1)%nat
              /\ probe_answers blk = repeat false k ++ [true]
              /\ p ∈ disk s')).
Proof.
  destruct (__init___frame cfg s)
    as (s' & blk & E & T & D & F & R & U & B & W & C & _ & Hshape).
  destruct Hshape as [(HA & p & HP & Hp)|(k & p & Hk & HA & HP & Hp)];
    exists s', blk, p; (split; [exact E|]); (split; [exact T|]);
    (split; [exact HP|]).
  - left. split; [exact HA|].
    apply not_elem_of_union in Hp as [H1 Hp].
    apply not_elem_of_union in Hp as [H2 Hp].
    apply not_elem_of_singleton in H1, H2.
    split; [exact Hp|]. split; [|exact H2]. rewrite R. congruence.
  - right. exists k. split; [exact Hk|]. split; [exact HA|].
    rewrite D. apply elem_of_union. right. apply elem_of_union. now right.
Qed.

(** X3. With a clock that shows one day [today] throughout [_setup], the
    scan finds the nearest report: when the directory of [today] minus [d]
    exists for some [d] from 1 to 29 and none exists for a smaller number
    of days, [self.previous_reports] is that directory, and it is on
    disk. *)
Theorem init_finds_nearest_report cfg s today d :
  (forall r, In r (readings days_back (world s)) -> r = today) ->
  (1 <= d < days_back)%nat ->
  dated_dir cfg today d ∈ scan_disk cfg today (disk s) ->
  (forall day, (1 <= day < d)%nat ->
     dated_dir cfg today day ∉ scan_disk cfg today (disk s)) ->
  exists s',
    __init__ cfg s = Returns tt s'
    /\ previous_reports (self s') = Some (dated_dir cfg today d)
    /\ dated_dir cfg today d ∈ disk s'.
Proof.
  intros Hclock Hd Hin Hbefore.
  destruct (__init___spec cfg s) as (s' & blk & E & _ & _ & _ & _ & Hsteady).
  destruct (Hsteady today Hclock) as [_ Hprev].
  destruct (__init___frame cfg s) as (s2 & blk2 & E2 & _ & D & _).
  rewrite E in E2. injection E2 as <-.
  exists s'. split; [exact E|].
  assert (Hnow : fst (read_clock (world s)) = today)
    by (apply Hclock; now left).
  rewrite Hnow in D. fold (scan_disk cfg today (disk s)) in Hprev, D.
  split.
  - rewrite Hprev, (range_split d Hd), map_app. cbn [map].
    apply scan_first_found; [|exact Hin].
    intros q Hq. apply in_map_iff in Hq as (day & <- & Hday).
    apply in_seq in Hday. apply Hbefore. lia.
  - rewrite D. apply elem_of_union. right. apply elem_of_union. now right.
Qed.

(** X4. With a clock that shows one day [today] throughout [_setup] and no
    report directory for any of the 29 days before it,
    [self.previous_reports] is the directory of [today] minus 29, the last
    one probed, which does not exist. *)
Theorem init_without_report_keeps_last_probe cfg s today :
  (forall r, In r (readings days_back (world s)) -> r = today) ->
  (forall day, (1 <= day < days_back)%nat ->
     dated_dir cfg today day ∉ scan_disk cfg today (disk s)) ->
  exists s',
    __init__ cfg s = Returns tt s'
    /\ previous_reports (self s') = Some (dated_dir cfg today (days_back - 1))
    /\ dated_dir cfg today (days_back - 1) ∉ scan_disk cfg today (disk s).
Proof.
  intros Hclock Hnone.
  destruct (__init___spec cfg s) as (s' & blk & E & _ & _ & _ & _ & Hsteady).
  destruct (Hsteady today Hclock) as [_ Hprev].
  exists s'. split; [exact E|]. split.
  - rewrite Hprev. fold (scan_disk cfg today (disk s)).
    change (map (dated_dir cfg today) (range 1 days_back))
      with (map (dated_dir cfg today) (seq 1 (days_back - 2))
            ++ [dated_dir cfg today (days_back - 1)]).
    apply scan_none_found. intros q Hq.
    change (map (dated_dir cfg today) (seq 1 (days_back - 2))
            ++ [dated_dir cfg today (days_back - 1)])
      with (map (dated_dir cfg today) (seq 1 (days_back - 1))) in Hq.
    apply in_map_iff in Hq as (day & <- & Hday).
    apply in_seq in Hday. apply Hnone. unfold days_back in *. lia.
  - apply Hnone. unfold days_back. lia.
Qed.

(** X13. The warnings readable after [Reporter(config).run()] are exactly
    the warnings the clients of that run reported, in call order: the
    constructor starts from an empty list and makes no fetch, and the run
    takes over every reported warning and adds none of its own. *)
Theorem session_warnings_are_reported cfg s :
  exists blk,
    trace (final (session cfg s)) = trace s ++ blk
    /\ warnings (self (final (session cfg s))) = reported blk.
Proof.
  unfold session, bind.
  destruct (__init___frame cfg s)
    as (s1 & b1 & E & T & _ & _ & R & _ & _ & W & _ & Q & _).
  rewrite E.
  destruct (run_log _ s1 R) as (b2 & A).
  destruct (run_sink_writes _ s1 R) as (b2' & T2 & _ & HD).
  assert (b2' = b2).
  { rewrite (acc_trace _ _ _ _ A) in T2. now apply app_inv_head in T2. }
  subst b2'. exists (b1 ++ b2). split.
  - rewrite (acc_trace _ _ _ _ A), T. now rewrite app_assoc.
  - rewrite (acc_warnings _ _ _ _ A), W, reported_app, Q, HD. reflexivity.
Qed.

(** ** Every configured fetch is made *)

Lemma calls_in r a p blk :
  In (CFetch r a p) (calls blk) -> exists d ws, In (EvFetch r a (Some p) d ws) blk.
Proof.
  unfold calls. intros H. apply in_flat_map in H as (e & He & Hc).
  destruct e; try contradiction.
  - destruct Hc as [Hc|[]]. discriminate.
  - destruct project as [q|]; [|contradiction].
    destruct Hc as [Hc|[]]. injection Hc as -> -> ->. eauto.
Qed.

Lemma in_project_calls attrs table project r items a :
  In project table -> In (r, items) attrs -> In a items ->
  In (CFetch r a (get_value project "projectId"))
     (flat_map (project_calls attrs) table).
Proof.
  intros Hp He Ha. apply in_flat_map. exists project. split; [exact Hp|].
  unfold project_calls. apply in_flat_map. exists (r, items). split; [exact He|].
  unfold resource_calls. cbn [fst snd]. right.
  apply in_map_iff. exists a. split; [reflexivity | exact Ha].
Qed.

(** C3. Warnings and data both survive a run.  When the run that starts in
    [s] is over, the engine's warnings are the ones it had followed by every
    warning the clients reported, call after call: nothing is dropped or
    cleared.  Every fetch of the run that came back non-empty had its first
    item saved and inserted.  And no warning stops the collection: when
    discovery lists its projects, every attribute name of every configured
    resource type is fetched for every project of the table, with an answer
    of the service; so whenever the service answers one such fetch with a
    warning and another, later or earlier, with data, the warning is among
    the engine's warnings at the end and the first item of the data is in
    the table of its attribute and was saved to its report file. *)
Theorem run_keeps_warnings_and_data dir s :
  reports (self s) = Some dir ->
  exists blk,
    trace (final (run s)) = trace s ++ blk
    /\ warnings (self (final (run s))) = warnings (self s) ++ reported blk
    /\ (forall r a p d ws w,
          In (EvFetch r a p d ws) blk -> In w ws ->
          In w (warnings (self (final (run s)))))
    /\ (forall r a p x xs ws,
          In (EvFetch r a (Some p) (Some (x :: xs)) ws) blk ->
          In (EvSave (get_full_path dir (report_name p a)) x) blk
          /\ In (EvInsert a x) blk
          /\ In x (get_table a (database (self (final (run s))))))
    /\ (forall rows ws0 w0,
          api "cloudresourcemanager" "projects" None (world s)
          = ((Some rows, ws0), w0) ->
          forall project r items a,
            In project (get_table "projects" (database (self s)) ++ rows) ->
            In (r, items) (gcp_attributes (config (self s))) ->
            In a items ->
            (exists d ws w,
               In (EvFetch r a (Some (get_value project "projectId")) d ws) blk
               /\ fst (api r a (Some (get_value project "projectId")) w) = (d, ws))
            /\ (forall d ws,
                  (forall w, fst (api r a (Some (get_value project "projectId")) w)
                             = (d, ws)) ->
                  (forall m, In m ws -> In m (warnings (self (final (run s)))))
                  /\ (forall x xs, d = Some (x :: xs) ->
                        In x (get_table a (database (self (final (run s)))))
                        /\ In (EvSave (get_full_path dir
                                         (report_name (get_value project "projectId") a)) x)
                              blk
                        /\ In (EvInsert a x) blk))).
Proof.
  intros Hr.
  destruct (api "cloudresourcemanager" "projects" None (world s))
    as [[data ws0] w0] eqn:E.
  destruct (run_spec dir s data ws0 w0 Hr E) as (s' & blk & Erun & A & B & Hshape).
  destruct (answered_run s) as (blk' & T' & HA).
  assert (Hfinal : final (run s) = s') by (rewrite Erun; now destruct data).
  rewrite Hfinal in *. clear Erun Hfinal.
  assert (blk' = discovery_log data ws0 ++ blk).
  { rewrite (acc_trace _ _ _ _ A) in T'. now apply app_inv_head in T'. }
  subst blk'.
  assert (HW : warnings (self s')
               = warnings (self s) ++ reported (discovery_log data ws0 ++ blk)).
  { rewrite (acc_warnings _ _ _ _ A), reported_app, drained_app, B.
    destruct (discovery_log_reported data ws0) as (-> & -> & _). reflexivity. }
  assert (H3 : forall r a p d ws w,
             In (EvFetch r a p d ws) (discovery_log data ws0 ++ blk) -> In w ws ->
             In w (warnings (self s'))).
  { intros r a p d ws w He Hw. rewrite HW. apply in_or_app. right.
    eapply in_reported; eassumption. }
  assert (H4 : forall r a p x xs ws,
             In (EvFetch r a (Some p) (Some (x :: xs)) ws)
                (discovery_log data ws0 ++ blk) ->
             In (EvSave (get_full_path dir (report_name p a)) x)
                (discovery_log data ws0 ++ blk)
             /\ In (EvInsert a x) (discovery_log data ws0 ++ blk)
             /\ In x (get_table a (database (self s')))).
  { intros r a p x xs ws He.
    assert (Hsave : In (EvSave (get_full_path dir (report_name p a)) x)
                       (discovery_log data ws0 ++ blk)).
    { eapply in_sinks; [apply (acc_sinks _ _ _ _ A) | exact He | now left]. }
    assert (Hins : In (EvInsert a x) (discovery_log data ws0 ++ blk)).
    { eapply in_sinks; [apply (acc_sinks _ _ _ _ A) | exact He | right; now left]. }
    split; [exact Hsave|]. split; [exact Hins|].
    rewrite (acc_tables _ _ _ _ A). apply in_or_app. right.
    now apply in_inserted. }
  exists (discovery_log data ws0 ++ blk).
  split; [apply (acc_trace _ _ _ _ A)|]. split; [exact HW|].
  split; [exact H3|]. split; [exact H4|].
  intros rows ws1 w1 E1. injection E1 as -> -> ->.
  change (default [] (Some rows)) with rows in Hshape.
  destruct Hshape as (rest & -> & C).
  intros project r items a Hp He Ha.
  pose proof (in_project_calls _ _ project r items a Hp He Ha) as Hc.
  rewrite <- C in Hc. apply calls_in in Hc as (d & ws & Hin).
  assert (Hin' : In (EvFetch r a (Some (get_value project "projectId")) d ws)
                    (discovery_log (Some rows) ws1
                     ++ EvGetTable "projects"
                          (get_table "projects" (database (self s)) ++ rows) :: rest)).
  { apply in_or_app. right. now right. }
  assert (Hans : exists w,
             fst (api r a (Some (get_value project "projectId")) w) = (d, ws)).
  { rewrite List.Forall_forall in HA. exact (HA _ Hin'). }
  destruct Hans as (w & Hw). split; [eauto|].
  intros d' ws' Hfix. rewrite Hfix in Hw. injection Hw as <- <-.
  split.
  - intros m Hm. eapply H3; eassumption.
  - intros x xs ->. destruct (H4 _ _ _ _ _ _ Hin') as (S1 & S2 & S3). auto.
Qed.

(** ** Each directory name comes from its own reading of the clock *)

Lemma search_previous_own cfg days : forall s,
  exists s' blk,
    search_previous cfg days s = Returns tt s'
    /\ trace s' = trace s ++ blk
    /\ reports (self s') = reports (self s)
    /\ (forall day now d, In (EvGetDate day now d) blk ->
          In day days /\ d = date_str (now - Z.of_nat day))
    /\ (forall path found, In (EvIsPath path found) blk ->
          exists day now,
            In day days
            /\ In (EvGetDate day now (date_str (now - Z.of_nat day))) blk
            /\ path = dated_dir cfg now day)
    /\ (previous_reports (self s') = previous_reports (self s)
        \/ exists day now,
             In day days
             /\ In (EvGetDate day now (date_str (now - Z.of_nat day))) blk
             /\ previous_reports (self s') = Some (dated_dir cfg now day)).
Proof.
  induction days as [|day rest IH]; intros s.
  - exists s, []. cbn. rewrite app_nil_r.
    split; [reflexivity|]. split; [reflexivity|]. split; [reflexivity|].
    split; [intros ? ? ? []|]. split; [intros ? ? []|]. now left.
  - cbn [search_previous]. unfold bind, get_date, is_path.
    destruct (read_clock (world s)) as [now w] eqn:E. cbn.
    set (path := get_full_path (reports_dir cfg) (date_str (now - Z.of_nat day))).
    set (reading := EvGetDate day now (date_str (now - Z.of_nat day))).
    destruct (bool_decide (path ∈ disk s)) eqn:Hfound; cbn.
    + exists (emit (EvIsPath path true)
                (with_self (set_previous_reports path)
                   (emit reading (with_world w s)))),
             [reading; EvIsPath path true].
      split; [reflexivity|]. cbn. rewrite <- app_assoc.
      split; [reflexivity|]. split; [reflexivity|].
      split; [|split].
      * intros day' now' d' [H|[H|[]]]; [|discriminate].
        injection H as <- <- <-. split; [now left | reflexivity].
      * intros path' found' [H|[H|[]]]; [discriminate|].
        injection H as <- <-. exists day, now.
        split; [now left|]. split; [now left | reflexivity].
      * right. exists day, now. split; [now left|]. split; [now left | reflexivity].
    + match goal with
      | |- context [search_previous cfg rest ?s1] =>
          destruct (IH s1) as (s' & blk & E' & T & R & HG & HP & HV)
      end.
      rewrite E'. cbn in T, R, HV.
      exists s', ([reading; EvIsPath path false] ++ blk).
      split; [reflexivity|]. rewrite T, <- !app_assoc.
      split; [reflexivity|]. split; [exact R|].
      split; [|split].
      * intros day' now' d' [H|[H|H]]; [|discriminate|].
        -- injection H as <- <- <-. split; [now left | reflexivity].
        -- destruct (HG _ _ _ H) as [Hin Hd]. split; [now right | exact Hd].
      * intros path' found' [H|[H|H]]; [discriminate| |].
        -- injection H as <- <-. exists day, now.
           split; [now left|]. split; [now left | reflexivity].
        -- destruct (HP _ _ H) as (day' & now' & Hin & Hev & Hpath).
           exists day', now'. split; [now right|].
           split; [right; now right | exact Hpath].
      * right. destruct HV as [HV|(day' & now' & Hin & Hev & HV)].
        -- exists day, now. split; [now left|]. split; [now left | exact HV].
        -- exists day', now'. split; [now right|].
           split; [right; now right | exact HV].
Qed.

Lemma __init___own cfg s :
  exists s' blk,
    __init__ cfg s = Returns tt s'
    /\ trace s' = trace s ++ blk
    /\ (exists now0,
          In (EvGetDate 0 now0 (date_str (now0 - Z.of_nat 0))) blk
          /\ reports (self s') = Some (dated_dir cfg now0 0))
    /\ (forall day now d, In (EvGetDate day now d) blk ->
          In day (0%nat :: range 1 days_back) /\ d = date_str (now - Z.of_nat day))
    /\ (forall path found, In (EvIsPath path found) blk ->
          exists day now,
            In day (range 1 days_back)
            /\ In (EvGetDate day now (date_str (now - Z.of_nat day))) blk
            /\ path = dated_dir cfg now day)
    /\ (forall p, previous_reports (self s') = Some p ->
          exists day now,
            In day (range 1 days_back)
            /\ In (EvGetDate day now (date_str (now - Z.of_nat day))) blk
            /\ p = dated_dir cfg now day).
Proof.
  unfold __init__, bind. cbn [with_self].
  set (s0 := with_self (fun _ => new_reporter cfg) s).
  change (mkState (new_reporter cfg) (disk s) (files s) (world s) (trace s)) with s0.
  assert (Hprev0 : previous_reports (self s0) = None) by reflexivity.
  assert (Hcfg : config (self s0) = cfg) by reflexivity.
  assert (Htr : trace s0 = trace s) by reflexivity.
  clearbody s0.
  unfold _setup, bind, create_dir, get_date, print_to_stdout, ret.
  rewrite Hcfg.
  cbn [emit with_self with_world self disk files world trace].
  destruct (read_clock (world s0)) as [now w] eqn:E.
  cbn [fst emit with_self with_world self disk files world trace].
  remember (range 1 days_back) as days eqn:Hdays. clear Hdays.
  match goal with
  | |- context [search_previous cfg days ?s1] =>
      destruct (search_previous_own cfg days s1)
        as (s1' & blk & E1 & T & R & HG & HP & HV)
  end.
  rewrite E1. unfold Database_open.
  cbn in T, R, HV. cbn.
  set (reading := EvGetDate 0 now (date_str (now - 0))).
  set (current := get_full_path (reports_dir cfg) (date_str (now - 0))) in *.
  eexists _, ([EvCreateDir (reports_dir cfg); reading; EvCreateDir current]
              ++ blk ++ [EvOpenDatabase (database_path (self s0));
                         EvCreateDir (database_path (self s0));
                         EvCreateDir (results_dir cfg)]).
  split; [reflexivity|]. cbn.
  split. { rewrite T, Htr, <- !app_assoc. reflexivity. }
  split. { exists now. split; [right; now left | exact R]. }
  split; [|split].
  - intros day' now' d' [H|[H|[H|H]]]; try discriminate.
    + injection H as <- <- <-. split; [now left | reflexivity].
    + apply in_app_or in H as [H|[H|[H|[H|[]]]]]; try discriminate.
      destruct (HG _ _ _ H) as [Hin Hd]. split; [now right | exact Hd].
  - intros path' found' [H|[H|[H|H]]]; try discriminate.
    apply in_app_or in H as [H|[H|[H|[H|[]]]]]; try discriminate.
    destruct (HP _ _ H) as (day' & now' & Hin & Hev & Hpath).
    exists day', now'. split; [exact Hin|]. split; [|exact Hpath].
    right. right. right. apply in_or_app. now left.
  - intros p Hp. destruct HV as [HV|(day' & now' & Hin & Hev & HV)].
    + rewrite HV, Hprev0 in Hp. discriminate.
    + rewrite HV in Hp. injection Hp as <-.
      exists day', now'. split; [exact Hin|]. split; [|reflexivity].
      right. right. right. apply in_or_app. now left.
Qed.

(** C9 (amended). Each directory name of [_setup] comes from its own
    reading of the clock: the constructor returns, the current report
    directory is named after a reading made for day 0, every probed path
    and the previous report directory are named after a reading made for
    one of the days 1 to 29, each reading taken by the [util.get_date]
    call of that name.  So when the clock shows one day [today] at every
    reading the constructor made, the current report directory, every
    probed path and the previous report directory are all derived from
    [today]. *)
Theorem setup_dates_agree_under_steady_clock cfg s :
  exists s' blk,
    __init__ cfg s = Returns tt s'
    /\ trace s' = trace s ++ blk
    /\ (exists now0,
          In (EvGetDate 0 now0 (date_str (now0 - Z.of_nat 0))) blk
          /\ reports (self s') = Some (dated_dir cfg now0 0))
    /\ (forall path found, In (EvIsPath path found) blk ->
          exists day now,
            In day (range 1 days_back)
            /\ In (EvGetDate day now (date_str (now - Z.of_nat day))) blk
            /\ path = dated_dir cfg now day)
    /\ (forall p, previous_reports (self s') = Some p ->
          exists day now,
            In day (range 1 days_back)
            /\ In (EvGetDate day now (date_str (now - Z.of_nat day))) blk
            /\ p = dated_dir cfg now day)
    /\ (forall today,
          (forall day now d, In (EvGetDate day now d) blk -> now = today) ->
          reports (self s') = Some (dated_dir cfg today 0)
          /\ Forall (probe cfg today (0%nat :: range 1 days_back)) blk
          /\ (forall p, previous_reports (self s') = Some p ->
                exists day, In day (range 1 days_back) /\ p = dated_dir cfg today day)).
Proof.
  destruct (__init___own cfg s)
    as (s' & blk & E & T & (now0 & H0 & Hrep) & HG & HP & HV).
  exists s', blk. split; [exact E|]. split; [exact T|].
  split; [eauto|]. split; [exact HP|]. split; [exact HV|].
  intros today Hclock. split; [|split].
  - rewrite Hrep. now rewrite (Hclock _ _ _ H0).
  - apply List.Forall_forall. intros e He. destruct e; cbn; try exact I.
    + destruct (HG _ _ _ He) as [_ Hd]. rewrite (Hclock _ _ _ He) in Hd |- *.
      split; [reflexivity | exact Hd].
    + destruct (HP _ _ He) as (day' & now' & Hin & Hev & Hpath).
      exists day'. split; [now right|]. now rewrite <- (Hclock _ _ _ Hev).
  - intros p Hp. destruct (HV p Hp) as (day' & now' & Hin & Hev & Hpath).
    exists day'. split; [exact Hin|]. now rewrite <- (Hclock _ _ _ Hev).
Qed.

(** X1. What the constructor has done when it returns.  The disk holds
    what it held and the reports directory, the report directory of the
    day, the database path and the results directory; no JSON file has
    changed; [self.reports] is the report directory of the day,
    [self.results] the results log inside the results directory, the store
    is the one opened at [database_json], there is no warning yet, and
    neither a client was constructed nor a fetch made. *)
Theorem init_creates_directories cfg s :
  result (__init__ cfg s) = Some tt ->
  let s' := final (__init__ cfg s) in
  let current := dated_dir cfg (fst (read_clock (world s))) 0 in
  disk s' = {[results_dir cfg]} ∪ ({[database_json cfg]}
              ∪ ({[current]} ∪ ({[reports_dir cfg]} ∪ disk s)))
  /\ files s' = files s
  /\ reports (self s') = Some current
  /\ results (self s')
     = Some (get_full_path (results_dir cfg) (results_log_file cfg))
  /\ database (self s') = stored_rows (database_json cfg)
  /\ warnings (self s') = []
  /\ exists blk, trace s' = trace s ++ blk /\ List.filter is_remote blk = [].
Proof.
  intros _ s' current. subst s'.
  destruct (quiet___init__ cfg s) as (blk' & T' & Q).
  destruct (__init___frame cfg s)
    as (s2 & blk & E2 & T & D & F & R & U & B & W & _).
  rewrite E2 in *. cbn [final] in *.
  do 6 (split; [assumption|]). eauto.
Qed.

End Extras.

(** * The further properties on the concrete platform *)

Section ExtraRuns.
Import Demo.

(** X8, on the concrete platform. *)
Lemma run_rows_come_from_fetches_witness :
  exists blk,
    trace (final (run (ready firewall_service)))
    = trace (ready firewall_service) ++ blk
    /\ forall t, exists added,
         get_table t (database (self (final (run (ready firewall_service)))))
         = get_table t (database (self (ready firewall_service))) ++ added
         /\ forall row, In row added ->
              (exists r p xs ws,
                 In (EvFetch r t (Some p) (Some (row :: xs)) ws) blk)
              \/ (t = "projects"
                  /\ exists r a rows ws,
                       In (EvFetch r a None (Some rows) ws) blk /\ In row rows).
Proof.
  apply (run_rows_come_from_fetches "reports/day100" (ready firewall_service)).
  reflexivity.
Defined.

(** X9, on the concrete platform. *)
Lemma run_changes_only_report_files_witness :
  exists blk,
    trace (final (run (ready firewall_service)))
    = trace (ready firewall_service) ++ blk
    /\ forall path,
         files (final (run (ready firewall_service))) !! path
         = files (ready firewall_service) !! path
         \/ exists r a p doc xs ws,
              In (EvFetch r a (Some p) (Some (doc :: xs)) ws) blk
              /\ path = get_full_path "reports/day100" (report_name p a)
              /\ files (final (run (ready firewall_service))) !! path = Some doc.
Proof.
  apply (run_changes_only_report_files "reports/day100" (ready firewall_service)).
  reflexivity.
Defined.

(** X7, on the concrete platform. *)
Lemma collection_call_counts_witness :
  exists s' blk,
    _fetch_attributes_for_projects (final (_fetch_projects (ready firewall_service)))
    = Returns true s'
    /\ trace s'
       = trace (final (_fetch_projects (ready firewall_service)))
         ++ EvGetTable "projects" [project_a] :: blk
    /\ clients (calls blk) = 1%nat
    /\ fetches (calls blk) = 2%nat.
Proof.
  apply (collection_call_counts "reports/day100"
           (final (_fetch_projects (ready firewall_service)))).
  reflexivity.
Defined.

(** X5, on the concrete platform. *)
Lemma run_stops_when_project_list_absent_witness :
  exists s',
    run (ready denied_service)
    = Raises (TypeError "'NoneType' object is not iterable") s'
    /\ warnings (self s')
       = warnings (self (ready denied_service)) ++ ["projects: permission denied"]
    /\ (forall t, get_table t (database (self s'))
                  = get_table t (database (self (ready denied_service))))
    /\ disk s' = disk (ready denied_service)
    /\ files s' = files (ready denied_service)
    /\ trace s' = trace (ready denied_service)
                  ++ [EvClient "cloudresourcemanager" "v1";
                      EvFetch "cloudresourcemanager" "projects" None None
                              ["projects: permission denied"]]
                  ++ extend_log ["projects: permission denied"].
Proof.
  apply (run_stops_when_project_list_absent (ready denied_service)
           ["projects: permission denied"] (world (ready denied_service))).
  reflexivity.
Defined.

(** X6, on the concrete platform. *)
Lemma discovery_twice_appends_twice_witness :
  exists s',
    bind _fetch_projects (fun _ => _fetch_projects) (ready firewall_service)
    = Returns 1%nat s'
    /\ get_table "projects" (database (self s'))
       = get_table "projects" (database (self (ready firewall_service)))
         ++ [project_a] ++ [project_a]
    /\ forall row, In row [project_a] -> In row [project_a] ->
         ~ NoDup (map (fun r => get_value r "projectId")
                      (get_table "projects" (database (self s')))).
Proof.
  apply (discovery_twice_appends_twice (ready firewall_service)
           [project_a] [] (world (ready firewall_service))
           [project_a] [] (world (ready firewall_service)));
    reflexivity.
Defined.

(** X3, on the concrete platform. *)
Lemma init_finds_nearest_report_witness :
  exists s',
    __init__ cfg (boot cfg {["reports/day97"]} (mkWorld [] 100 empty_service))
    = Returns tt s'
    /\ previous_reports (self s') = Some (dated_dir cfg 100 3)
    /\ dated_dir cfg 100 3 ∈ disk s'.
Proof.
  apply (init_finds_nearest_report cfg
           (boot cfg {["reports/day97"]} (mkWorld [] 100 empty_service)) 100 3).
  - intros d Hd. cbv in Hd.
    repeat (destruct Hd as [Hd|Hd]; [symmetry; exact Hd|]). destruct Hd.
  - unfold days_back. lia.
  - apply (bool_decide_unpack _). vm_compute. exact I.
  - intros day Hday.
    assert (Hin : In day (seq 1 2)) by (apply in_seq; lia).
    clear Hday. revert day Hin. apply List.Forall_forall.
    apply (bool_decide_unpack _). vm_compute. exact I.
Defined.

(** X4, on the concrete platform. *)
Lemma init_without_report_keeps_last_probe_witness :
  exists s',
    __init__ cfg (boot cfg ∅ (mkWorld [] 100 empty_service)) = Returns tt s'
    /\ previous_reports (self s') = Some (dated_dir cfg 100 (days_back - 1))
    /\ dated_dir cfg 100 (days_back - 1)
       ∉ scan_disk cfg 100 (disk (boot cfg ∅ (mkWorld [] 100 empty_service))).
Proof.
  apply (init_without_report_keeps_last_probe cfg
           (boot cfg ∅ (mkWorld [] 100 empty_service)) 100).
  - intros d Hd. cbv in Hd.
    repeat (destruct Hd as [Hd|Hd]; [symmetry; exact Hd|]). destruct Hd.
  - intros day Hday.
    assert (Hin : In day (seq 1 29))
      by (apply in_seq; unfold days_back in Hday; lia).
    clear Hday. revert day Hin. apply List.Forall_forall.
    apply (bool_decide_unpack _). vm_compute. exact I.
Defined.

(** C3, at a first run on day 100 against a service that refuses the
    networks with a warning and then lists two firewalls: the warning and
    the first firewall are both there at the end. *)
Lemma run_keeps_warnings_and_data_witness :
  In "networks: permission denied"
     (warnings (self (final (run (fixed_ready firewall_service ∅)))))
  /\ In fw1 (get_table "firewalls"
               (database (self (final (run (fixed_ready firewall_service ∅)))))).
Proof.
  assert (Hr : reports (self (fixed_ready firewall_service ∅)) = Some "reports/day100")
    by (vm_compute; reflexivity).
  assert (Ha : @api (fixed firewall_service ∅) "cloudresourcemanager" "projects" None
                 (world (fixed_ready firewall_service ∅))
               = ((Some [project_a], []), mkClock [] 100))
    by (vm_compute; reflexivity).
  assert (Hc : gcp_attributes (config (self (fixed_ready firewall_service ∅)))
               = [("compute", ["networks"; "firewalls"])])
    by (vm_compute; reflexivity).
  destruct (@run_keeps_warnings_and_data (fixed firewall_service ∅)
              "reports/day100" (fixed_ready firewall_service ∅) Hr)
    as (blk & _ & _ & _ & _ & H).
  specialize (H [project_a] [] (mkClock [] 100) Ha).
  rewrite Hc in H.
  split.
  - destruct (H project_a "compute" ["networks"; "firewalls"] "networks")
      as [_ H1];
      [apply in_or_app; right; now left | now left | now left |].
    destruct (H1 None ["networks: permission denied"] (fun w => eq_refl))
      as [Hw _].
    apply Hw. now left.
  - destruct (H project_a "compute" ["networks"; "firewalls"] "firewalls")
      as [_ H1];
      [apply in_or_app; right; now left | now left | right; now left |].
    destruct (H1 (Some [fw1; fw2]) [] (fun w => eq_refl)) as [_ Hd].
    destruct (Hd fw1 [fw2] eq_refl) as [Hx _]. exact Hx.
Defined.

(** C6, as stated, fails when the store already holds a project: opened on
    a store that holds proj-a, a discovery that lists proj-a alone (one
    project, one projectId) reports 1 and leaves two rows with the same
    projectId. *)
Lemma stored_project_breaks_the_count :
  let s := fixed_ready firewall_service {["projects" := [project_a]]} in
  let out := _fetch_projects s in
  fst (fst (api "cloudresourcemanager" "projects" None (world s))) = Some [project_a]
  /\ result out = Some 1%nat
  /\ length (get_table "projects" (database (self (final out)))) = 2%nat
  /\ ~ NoDup (map (fun r => @get_value (fixed firewall_service
                                          {["projects" := [project_a]]}) r "projectId")
                  (get_table "projects" (database (self (final out))))).
Proof.
  split; [reflexivity|]. split; [vm_compute; reflexivity|].
  split; [vm_compute; reflexivity|].
  intros H.
  assert (E : map (fun r => @get_value (fixed firewall_service
                                          {["projects" := [project_a]]}) r "projectId")
                  (get_table "projects"
                     (database (self (final (_fetch_projects
                        (fixed_ready firewall_service
                           {["projects" := [project_a]]}))))))
              = ["proj-a"; "proj-a"]) by (vm_compute; reflexivity).
  rewrite E in H. inversion H as [|? ? Hnot _]. apply Hnot. now left.
Qed.

(** C9, at a clock that shows day 100 at the four readings the constructor
    makes before it finds the report of day 97, and day 101 afterwards. *)
Lemma setup_dates_agree_under_steady_clock_witness :
  exists s',
    __init__ cfg (boot cfg {["reports/day97"]}
                    (mkWorld [100; 100; 100; 100; 101] 101 empty_service))
    = Returns tt s'
    /\ reports (self s') = Some (dated_dir cfg 100 0)
    /\ (forall p, previous_reports (self s') = Some p ->
          exists day, In day (range 1 days_back) /\ p = dated_dir cfg 100 day).
Proof.
  destruct (setup_dates_agree_under_steady_clock cfg
              (boot cfg {["reports/day97"]}
                 (mkWorld [100; 100; 100; 100; 101] 101 empty_service)))
    as (s' & blk & E & T & _ & _ & _ & H).
  exists s'. split; [exact E|].
  assert (Hs : s' = final (__init__ cfg
                 (boot cfg {["reports/day97"]}
                    (mkWorld [100; 100; 100; 100; 101] 101 empty_service))))
    by (rewrite E; reflexivity).
  destruct (H 100) as (H1 & _ & H3); [|split; assumption].
  intros day now d Hin.
  assert (Hin' : In (EvGetDate day now d) (trace s')) by (rewrite T; exact Hin).
  rewrite Hs in Hin'. vm_compute in Hin'.
  repeat (destruct Hin' as [Hin'|Hin'];
          [first [discriminate Hin' | injection Hin' as _ <- _; reflexivity]|]).
  destruct Hin'.
Defined.

(** X1, at a constructor run on day 100 on an empty disk. *)
Lemma init_creates_directories_witness :
  let s := boot cfg ∅ (mkWorld [] 100 empty_service) in
  let s' := final (__init__ cfg s) in
  let current := dated_dir cfg (fst (read_clock (world s))) 0 in
  disk s' = {[results_dir cfg]} ∪ ({[database_json cfg]}
              ∪ ({[current]} ∪ ({[reports_dir cfg]} ∪ disk s)))
  /\ files s' = files s
  /\ reports (self s') = Some current
  /\ results (self s')
     = Some (get_full_path (results_dir cfg) (results_log_file cfg))
  /\ database (self s') = stored_rows (database_json cfg)
  /\ warnings (self s') = []
  /\ exists blk, trace s' = trace s ++ blk /\ List.filter is_remote blk = [].
Proof.
  intros s.
  assert (E : result (__init__ cfg s) = Some tt) by (vm_compute; reflexivity).
  exact (init_creates_directories cfg s E).
Defined.

End ExtraRuns.
